(** * Overdue-debt risk classification: preprocessing, classifiers, decision ledger

    A shallow embedding of the Python back end (src/backend) and the
    properties its specification states about it.

    Conventions of the embedding.
    - A Python [str] is a Rocq [string]; a non-ASCII character of the source
      appears as the bytes the source file holds for it.  [lower], [upper]
      and white space follow Python on the ASCII range.
    - A JSON value (what [json.loads] and [json.load] return) is a [pyval];
      a Python [dict] with string keys is a [gmap string pyval].
    - A Python [float] is a binary64 primitive float.
    - A function that can raise returns a [result]: [Ok v] or [Raise e].
    - What lives outside the repository is a parameter: the JSON decoder,
      the text-generation service, the clock, and [repr] of floats and
      containers. *)

From Stdlib Require Import ZArith String Ascii List Lia.
From Stdlib Require Import DecimalString DecimalNat DecimalZ.
From Stdlib Require Import PrimFloat FloatOps SpecFloat Uint63.
From stdpp Require Import gmap strings list fin_maps.

Set Warnings "-inexact-float,-register-all".

(* ===================================================================== *)
(** * Python values, exceptions and built-ins *)
(* ===================================================================== *)

Module Py.

(** JSON-shaped Python values. *)
Inductive pyval :=
| PNone
| PBool (b : bool)
| PInt (z : Z)
| PFloat (f : float)
| PStr (s : string)
| PList (l : list pyval)
| PDict (d : gmap string pyval).

(** Exception classes the back end can meet; [OtherError] stands for any
    other subclass of [Exception] (transport and service errors). *)
Inductive exn_class :=
| JSONDecodeError | TypeError | AttributeError | KeyError | ValueError
| OverflowError | ZeroDivisionError | OtherError.

Record exn := mk_exn { exn_cls : exn_class; exn_msg : string }.

Inductive result (A : Type) :=
| Ok (a : A)
| Raise (e : exn).
Arguments Ok {A} a.
Arguments Raise {A} e.

Definition bind {A B} (r : result A) (k : A → result B) : result B :=
  match r with
  | Ok a => k a
  | Raise e => Raise e
  end.

Declare Scope py_scope.
Delimit Scope py_scope with py.
Notation "'let*' x ':=' r 'in' k" := (bind r (fun x => k))
  (at level 10, x name, r at level 100, k at level 200) : py_scope.
Notation "'check' r 'in' k" := (bind r (fun _ => k))
  (at level 10, r at level 100, k at level 200) : py_scope.
Open Scope py_scope.

Definition is_exn_class (c : exn_class) (e : exn) : bool :=
  match c, exn_cls e with
  | JSONDecodeError, JSONDecodeError => true
  | TypeError, TypeError => true
  | AttributeError, AttributeError => true
  | KeyError, KeyError => true
  | ValueError, ValueError => true
  | OverflowError, OverflowError => true
  | ZeroDivisionError, ZeroDivisionError => true
  | OtherError, OtherError => true
  | _, _ => false
  end.

Definition type_name (v : pyval) : string :=
  match v with
  | PNone => "NoneType"
  | PBool _ => "bool"
  | PInt _ => "int"
  | PFloat _ => "float"
  | PStr _ => "str"
  | PList _ => "list"
  | PDict _ => "dict"
  end.

(** The messages of interpreter-raised errors follow CPython 3.12. *)
Definition no_attribute (v : pyval) (attr : string) : exn :=
  mk_exn AttributeError
    ("'" +:+ type_name v +:+ "' object has no attribute '" +:+ attr +:+ "'").

(** ** Strings *)

Definition ascii_lower (c : ascii) : ascii :=
  let n := N_of_ascii c in
  if (65 <=? n)%N && (n <=? 90)%N then ascii_of_N (n + 32) else c.

Definition ascii_upper (c : ascii) : ascii :=
  let n := N_of_ascii c in
  if (97 <=? n)%N && (n <=? 122)%N then ascii_of_N (n - 32) else c.

(** [s.lower()] and [s.upper()] *)
Fixpoint lower (s : string) : string :=
  match s with
  | EmptyString => EmptyString
  | String c t => String (ascii_lower c) (lower t)
  end.

Fixpoint upper (s : string) : string :=
  match s with
  | EmptyString => EmptyString
  | String c t => String (ascii_upper c) (upper t)
  end.

(** [s.startswith(p)] *)
Fixpoint startswith (p s : string) : bool :=
  match p, s with
  | EmptyString, _ => true
  | String a p', String b s' => if ascii_dec a b then startswith p' s' else false
  | String _ _, EmptyString => false
  end.

(** [needle in hay] on strings *)
Fixpoint str_in (needle hay : string) : bool :=
  startswith needle hay ||
  match hay with
  | EmptyString => false
  | String _ t => str_in needle t
  end.

(** The rest of [s] after the prefix [p], when [s] starts with [p]. *)
Fixpoint drop_prefix (p s : string) : option string :=
  match p, s with
  | EmptyString, _ => Some s
  | String a p', String b s' => if ascii_dec a b then drop_prefix p' s' else None
  | String _ _, EmptyString => None
  end.

(** [c.isspace()] on the ASCII range: tab to carriage return, the four
    separators FS GS RS US, and the blank. *)
Definition isspace (c : ascii) : bool :=
  let n := N_of_ascii c in
  ((9 <=? n)%N && (n <=? 13)%N) || ((28 <=? n)%N && (n <=? 32)%N).

Fixpoint lstrip (s : string) : string :=
  match s with
  | EmptyString => EmptyString
  | String c t => if isspace c then lstrip t else s
  end.

Definition rstrip (s : string) : string :=
  String.rev (lstrip (String.rev s)).

(** [s.strip()] *)
Definition strip (s : string) : string := rstrip (lstrip s).

(** [s[:n]] *)
Fixpoint take (n : nat) (s : string) : string :=
  match n, s with
  | O, _ => EmptyString
  | S n', String c t => String c (take n' t)
  | S _, EmptyString => EmptyString
  end.

(** [v == s] for a string [s]: only an equal string is equal to it. *)
Definition eq_str (v : pyval) (s : string) : bool :=
  match v with
  | PStr t => bool_decide (t = s)
  | _ => false
  end.

(** ** Dictionaries and containers *)

(** [v.get(k, dflt)]: only a dict has the method. *)
Definition get (v : pyval) (k : string) (dflt : pyval) : result pyval :=
  match v with
  | PDict d => Ok (default dflt (d !! k))
  | _ => Raise (no_attribute v "get")
  end.

(** [k in v] for a string [k]: key of a dict, element of a list, substring
    of a string; the other values are not containers. *)
Definition contains (v : pyval) (k : string) : result bool :=
  match v with
  | PDict d => Ok (bool_decide (is_Some (d !! k)))
  | PList l => Ok (existsb (fun x => eq_str x k) l)
  | PStr s => Ok (str_in k s)
  | _ => Raise (mk_exn TypeError
             ("argument of type '" +:+ type_name v +:+ "' is not iterable"))
  end.

(** [v[k] = x] for a string [k]: only a dict accepts it. *)
Definition setitem (v : pyval) (k : string) (x : pyval) : result pyval :=
  match v with
  | PDict d => Ok (PDict (<[k := x]> d))
  | PList _ => Raise (mk_exn TypeError
                 "list indices must be integers or slices, not str")
  | _ => Raise (mk_exn TypeError
           ("'" +:+ type_name v +:+ "' object does not support item assignment"))
  end.

(** [v[k]] for a string [k]. *)
Definition getitem (v : pyval) (k : string) : result pyval :=
  match v with
  | PDict d =>
      match d !! k with
      | Some x => Ok x
      | None => Raise (mk_exn KeyError ("'" +:+ k +:+ "'"))
      end
  | PStr _ => Raise (mk_exn TypeError "string indices must be integers, not 'str'")
  | PList _ => Raise (mk_exn TypeError
                 "list indices must be integers or slices, not str")
  | _ => Raise (mk_exn TypeError
           ("'" +:+ type_name v +:+ "' object is not subscriptable"))
  end.

(** [v.upper()]: only a string has the method. *)
Definition upper_of (v : pyval) : result string :=
  match v with
  | PStr s => Ok (upper s)
  | _ => Raise (no_attribute v "upper")
  end.

(** ** Numbers *)

(** [str(z)] for an int *)
Definition str_int (z : Z) : string := NilZero.string_of_int (Z.to_int z).

(** [float(n)] for an int below 2^53 in absolute value, where it is exact *)
Definition Z2float (z : Z) : float :=
  if (z <? 0)%Z then PrimFloat.opp (of_uint63 (Uint63.of_Z (- z)))
  else of_uint63 (Uint63.of_Z z).

Definition as_int (b : bool) : Z := if b then 1%Z else 0%Z.

Definition not_supported (op : string) (v : pyval) : exn :=
  mk_exn TypeError ("'" +:+ op +:+ "' not supported between instances of '"
                    +:+ type_name v +:+ "' and 'int'").

(** [v < n], [v <= n] and [v == n] for an int literal [n] of the source
    (all below 2^53): ints and bools compare as integers, a float by its
    value (nan is below nothing), anything else is not ordered with an int. *)
Definition lt_int (v : pyval) (n : Z) : result bool :=
  match v with
  | PInt z => Ok (z <? n)%Z
  | PBool b => Ok (as_int b <? n)%Z
  | PFloat f => Ok (PrimFloat.ltb f (Z2float n))
  | _ => Raise (not_supported "<" v)
  end.

Definition le_int (v : pyval) (n : Z) : result bool :=
  match v with
  | PInt z => Ok (z <=? n)%Z
  | PBool b => Ok (as_int b <=? n)%Z
  | PFloat f => Ok (PrimFloat.leb f (Z2float n))
  | _ => Raise (not_supported "<=" v)
  end.

Definition eq_int (v : pyval) (n : Z) : bool :=
  match v with
  | PInt z => (z =? n)%Z
  | PBool b => (as_int b =? n)%Z
  | PFloat f => PrimFloat.eqb f (Z2float n)
  | _ => false
  end.

(** The integer nearest to [n / d], ties to the even one ([0 < d]). *)
Definition round_half_even (n d : Z) : Z :=
  let q := (n / d)%Z in
  match (2 * (n mod d) ?= d)%Z with
  | Lt => q
  | Gt => (q + 1)%Z
  | Eq => if Z.even q then q else (q + 1)%Z
  end.

(** [float(z)] for any int, as the integer the nearest binary64 is (53
    significant bits, ties to even); too large an int overflows. *)
Definition int_to_double (z : Z) : result Z :=
  let a := Z.abs z in
  let bits := (Z.log2 a + 1)%Z in
  if (bits <=? 53)%Z then Ok z
  else
    let sh := (bits - 53)%Z in
    let r := (round_half_even a (2 ^ sh) * 2 ^ sh)%Z in
    if (2 ^ 1024 <=? r)%Z
    then Raise (mk_exn OverflowError "int too large to convert to float")
    else Ok (Z.sgn z * r)%Z.

(** Digits in groups of three, separated by commas. *)
Fixpoint commas_rev (k : nat) (s : string) : string :=
  match s with
  | EmptyString => EmptyString
  | String c t =>
      match t with
      | EmptyString => String c EmptyString
      | String _ _ =>
          if (k =? 2)%nat then String c (String "," (commas_rev 0 t))
          else String c (commas_rev (S k) t)
      end
  end.

Definition group_thousands (digits : string) : string :=
  String.rev (commas_rev 0 (String.rev digits)).

Definition signed_grouped (neg : bool) (n : Z) : string :=
  (if neg then "-" else "") +:+ group_thousands (str_int n).

(** [format(v, ',.0f')]: the value as a float, rounded to an integer (ties
    to even) and printed with thousands separators. *)
Definition format_comma_0f (v : pyval) : result string :=
  match v with
  | PInt z => let* r := int_to_double z in Ok (signed_grouped (z <? 0)%Z (Z.abs r))
  | PBool b => Ok (str_int (as_int b))
  | PFloat f =>
      Ok match Prim2SF f with
         | S754_nan => "nan"
         | S754_infinity s => if s then "-inf" else "inf"
         | S754_zero s => signed_grouped s 0
         | S754_finite s m e =>
             signed_grouped s
               (if (0 <=? e)%Z then (Z.pos m * 2 ^ e)%Z
                else round_half_even (Z.pos m) (2 ^ (- e)))
         end
  | PStr _ => Raise (mk_exn ValueError
                "Unknown format code 'f' for object of type 'str'")
  | _ => Raise (mk_exn TypeError
           ("unsupported format string passed to " +:+ type_name v +:+ ".__format__"))
  end.

(** An int as an unrounded floating-point number. *)
Definition int_to_SF (z : Z) : spec_float :=
  match z with
  | Z0 => S754_zero false
  | Zpos p => S754_finite false p 0
  | Zneg p => S754_finite true p 0
  end.

(** [a / b] for two ints: the float nearest to the quotient. *)
Definition true_div (a b : Z) : result float :=
  if (b =? 0)%Z then Raise (mk_exn ZeroDivisionError "division by zero")
  else Ok (SF2Prim (SFdiv prec emax (int_to_SF a) (int_to_SF b))).

(** [round(x, 1)]: the decimal with one digit nearest to the exact value of
    [x] (ties to even), read back as the float nearest to it; a float that is
    an integer, a zero, an infinity or nan is returned as it is. *)
Definition round1 (x : float) : float :=
  match Prim2SF x with
  | S754_finite s m e =>
      if (0 <=? e)%Z then x
      else
        match round_half_even (10 * Z.pos m) (2 ^ (- e)) with
        | Zpos k => SF2Prim (SFdiv prec emax (S754_finite s k 0) (S754_finite false 10 0))
        | _ => if s then PrimFloat.opp 0 else 0%float
        end
  | _ => x
  end.

(** ** Built-ins kept abstract *)

(** [repr] of floats and containers, and the JSON decoder of the standard
    library. *)
Class Builtins := {
  repr : pyval → string;
  json_loads : string → result pyval
}.

(** [str(v)], as an f-string renders a value. *)
Definition str `{Builtins} (v : pyval) : string :=
  match v with
  | PNone => "None"
  | PBool b => if b then "True" else "False"
  | PInt z => str_int z
  | PStr s => s
  | _ => repr v
  end.

End Py.

Import Py.

(* ===================================================================== *)
(** * preprocessor.py: raw case fields to descriptive context *)
(* ===================================================================== *)

Module CasePreprocessor.

(** Thresholds set by [__init__] and never changed afterwards. *)
Definition amount_thresholds_low : Z := 20000.
Definition amount_thresholds_medium : Z := 100000.
Definition amount_thresholds_high : Z := 500000.

Definition overdue_thresholds_recent : Z := 15.
Definition overdue_thresholds_moderate : Z := 45.
Definition overdue_thresholds_long : Z := 90.

Definition attempts_thresholds_none : Z := 0.
Definition attempts_thresholds_few : Z := 2.
Definition attempts_thresholds_multiple : Z := 5.

Definition low_amount_text : string := "Low amount (below â‚¹20,000)".
Definition medium_amount_text : string := "Medium amount (â‚¹20,000 - â‚¹1,00,000)".
Definition high_amount_text : string := "High amount (â‚¹1,00,000 - â‚¹5,00,000)".
Definition very_high_amount_text (shown : string) : string :=
  "Very high amount (above â‚¹5,00,000 - specifically â‚¹" +:+ shown +:+ ")".

Definition _categorize_amount (amount : pyval) : result string :=
  let* b1 := lt_int amount amount_thresholds_low in
  if b1 then Ok low_amount_text
  else
    let* b2 := lt_int amount amount_thresholds_medium in
    if b2 then Ok medium_amount_text
    else
      let* b3 := lt_int amount amount_thresholds_high in
      if b3 then Ok high_amount_text
      else
        let* shown := format_comma_0f amount in
        Ok (very_high_amount_text shown).

Section Rendering.
Context `{Builtins}.

Definition _categorize_overdue (days : pyval) : result string :=
  let* b1 := le_int days overdue_thresholds_recent in
  if b1 then Ok ("Recently overdue (" +:+ str days +:+ " days - within grace period)")
  else
    let* b2 := le_int days overdue_thresholds_moderate in
    if b2 then Ok ("Moderately overdue (" +:+ str days +:+ " days - needs attention)")
    else
      let* b3 := le_int days overdue_thresholds_long in
      if b3 then Ok ("Long overdue (" +:+ str days +:+ " days - serious concern)")
      else Ok ("Critically overdue (" +:+ str days +:+ " days - immediate action required)").

Definition _categorize_attempts (attempts : pyval) : result string :=
  if eq_int attempts attempts_thresholds_none then Ok "No recovery attempts made yet"
  else
    let* b2 := le_int attempts attempts_thresholds_few in
    if b2 then Ok ("Few recovery attempts (" +:+ str attempts +:+ " attempts)")
    else
      let* b3 := le_int attempts attempts_thresholds_multiple in
      if b3 then Ok ("Multiple failed recovery attempts (" +:+ str attempts +:+ " attempts)")
      else Ok ("Exhaustive recovery attempts failed (" +:+ str attempts
               +:+ " attempts - customer unresponsive)").

Definition _categorize_customer_type (customer_type : pyval) : result string :=
  match customer_type with
  | PStr s =>
      if bool_decide (lower s = "business")
      then Ok "Business customer (higher stakes, formal recovery process needed)"
      else Ok "Individual customer (personal approach may work)"
  | _ => Raise (no_attribute customer_type "lower")
  end.

Definition loan_contexts : gmap string string :=
  {[ "Credit Card" := "Credit card debt (unsecured, typically smaller amounts)";
     "Personal Loan" := "Personal loan (unsecured, medium priority)";
     "Home Loan" := "Home loan (secured by property, high recovery priority)";
     "Vehicle Loan" := "Vehicle loan (secured by vehicle, can be repossessed)";
     "Business Loan" := "Business loan (complex recovery, may involve legal action)" ]}.

(** A list or a dict is no dictionary key. *)
Definition unhashable (v : pyval) : exn :=
  mk_exn TypeError ("unhashable type: '" +:+ type_name v +:+ "'").

Definition _categorize_loan_type (loan_type : pyval) : result string :=
  let fallback := str loan_type +:+ " (standard recovery process)" in
  match loan_type with
  | PStr s => Ok (default fallback (loan_contexts !! s))
  | PList _ | PDict _ => Raise (unhashable loan_type)
  | _ => Ok fallback
  end.

(** [preprocess]: [None] for an absent or empty case. *)
Definition preprocess (case : option (gmap string pyval))
  : result (option (gmap string pyval)) :=
  match case with
  | None => Ok None
  | Some c =>
      if bool_decide (size c = 0%nat) then Ok None
      else
        let field k dflt := default dflt (c !! k) in
        let* amount_context := _categorize_amount (field "amount" (PInt 0)) in
        let* overdue_context := _categorize_overdue (field "days_overdue" (PInt 0)) in
        let* attempts_context := _categorize_attempts (field "past_attempts" (PInt 0)) in
        let* customer_context :=
          _categorize_customer_type (field "customer_type" (PStr "Individual")) in
        let* loan_context := _categorize_loan_type (field "loan_type" (PStr "Unknown")) in
        Ok (Some
          (<["case_id" := field "case_id" PNone]>
          (<["customer_name" := field "customer_name" PNone]>
          (<["raw_amount" := field "amount" PNone]>
          (<["raw_days_overdue" := field "days_overdue" PNone]>
          (<["raw_past_attempts" := field "past_attempts" PNone]>
          (<["amount_context" := PStr amount_context]>
          (<["overdue_context" := PStr overdue_context]>
          (<["attempts_context" := PStr attempts_context]>
          (<["customer_context" := PStr customer_context]>
          (<["loan_context" := PStr loan_context]> ∅)))))))))))
  end.

Definition nl : string := String "010" EmptyString.
Definition rule : string := "==================================".

(** [generate_prompt_context]: the text the classifier reads. *)
Definition generate_prompt_context (preprocessed_case : option (gmap string pyval))
  : result string :=
  match preprocessed_case with
  | None => Ok ""
  | Some p =>
      if bool_decide (size p = 0%nat) then Ok ""
      else
        let* case_id := getitem (PDict p) "case_id" in
        let* customer_name := getitem (PDict p) "customer_name" in
        let* amount_context := getitem (PDict p) "amount_context" in
        let* loan_context := getitem (PDict p) "loan_context" in
        let* overdue_context := getitem (PDict p) "overdue_context" in
        let* attempts_context := getitem (PDict p) "attempts_context" in
        let* customer_context := getitem (PDict p) "customer_context" in
        Ok (nl +:+ "CASE DETAILS FOR RISK ASSESSMENT:" +:+ nl
            +:+ rule +:+ nl
            +:+ "Case ID: " +:+ str case_id +:+ nl
            +:+ "Customer: " +:+ str customer_name +:+ nl
            +:+ nl
            +:+ "FINANCIAL CONTEXT:" +:+ nl
            +:+ "- Amount: " +:+ str amount_context +:+ nl
            +:+ "- Loan Type: " +:+ str loan_context +:+ nl
            +:+ nl
            +:+ "OVERDUE STATUS:" +:+ nl
            +:+ "- Duration: " +:+ str overdue_context +:+ nl
            +:+ nl
            +:+ "RECOVERY HISTORY:" +:+ nl
            +:+ "- Past Attempts: " +:+ str attempts_context +:+ nl
            +:+ nl
            +:+ "CUSTOMER PROFILE:" +:+ nl
            +:+ "- Type: " +:+ str customer_context +:+ nl
            +:+ rule +:+ nl)
  end.

End Rendering.
End CasePreprocessor.

(* ===================================================================== *)
(** * gemini_client.py: the two classifiers *)
(* ===================================================================== *)

(** ** The rule-based classifier *)

Module DemoGeminiClassifier.

Definition high_risk_indicators : list string :=
  [ "critically overdue";
    "exhaustive recovery attempts";
    "very high amount";
    "immediate action required" ].

Definition low_risk_indicators : list string :=
  [ "recently overdue";
    "no recovery attempts";
    "low amount";
    "within grace period" ].

(** [sum(1 for ind in indicators if ind in context_lower)] *)
Definition score (indicators : list string) (context_lower : string) : nat :=
  sum_list (List.map (fun _ => 1%nat)
              (List.filter (fun ind => str_in ind context_lower) indicators)).

Definition high_result : gmap string pyval :=
  {[ "risk_level" := PStr "HIGH";
     "confidence" := PFloat 0.85;
     "recovery_probability" := PStr "LOW";
     "recovery_percentage" := PInt 30;
     "reason" := PStr "Case shows multiple high-risk indicators including long overdue duration and multiple failed recovery attempts.";
     "recommended_action" := PStr "Escalate to legal team for formal notice. Consider asset recovery if secured loan." ]}.

Definition low_result : gmap string pyval :=
  {[ "risk_level" := PStr "LOW";
     "confidence" := PFloat 0.90;
     "recovery_probability" := PStr "VERY HIGH";
     "recovery_percentage" := PInt 85;
     "reason" := PStr "Case is recently overdue with low amount. Customer likely to pay with gentle reminder.";
     "recommended_action" := PStr "Send automated payment reminder. Schedule follow-up call in 3 days." ]}.

Definition medium_result : gmap string pyval :=
  {[ "risk_level" := PStr "MEDIUM";
     "confidence" := PFloat 0.75;
     "recovery_probability" := PStr "MODERATE";
     "recovery_percentage" := PInt 55;
     "reason" := PStr "Case shows mixed indicators. Moderate attention required with proactive follow-up.";
     "recommended_action" := PStr "Assign to recovery agent for personal follow-up. Offer payment plan options." ]}.

Definition classify_risk (case_context : string) : gmap string pyval :=
  let context_lower := lower case_context in
  let high_score := score high_risk_indicators context_lower in
  let low_score := score low_risk_indicators context_lower in
  if (2 <=? high_score)%nat then high_result
  else if (2 <=? low_score)%nat then low_result
  else medium_result.

End DemoGeminiClassifier.

(** ** The classifier backed by the text-generation service *)

Module GeminiRiskClassifier.

(** The object [__init__] builds: the fixed system prompt and the model.
    [generate_content prompt] is the text of the service's response, or the
    exception the call (or reading the response text) raises. *)
Record t := {
  system_prompt : string;
  generate_content : string → result string
}.

Definition _extract_risk_level (text : string) : string :=
  let text_upper := upper text in
  if str_in "HIGH RISK" text_upper || str_in "HIGH" text_upper then "HIGH"
  else if str_in "MEDIUM RISK" text_upper || str_in "MEDIUM" text_upper then "MEDIUM"
  else if str_in "LOW RISK" text_upper || str_in "LOW" text_upper then "LOW"
  else "UNKNOWN".

Definition fence : string := "```".
Definition nl : string := String "010" EmptyString.

(** [re.sub(r'^```json\s*', '', s)] and [re.sub(r'^```\s*', '', s)]: an
    opening marker at the very start goes, with the white space after it. *)
Definition sub_at_start (marker s : string) : string :=
  match drop_prefix marker s with
  | Some rest => lstrip rest
  | None => s
  end.

(** [re.sub(r'\s*```$', '', s)]: a closing marker at the end (or before a
    final newline) goes, with the white space before it. *)
Definition sub_at_end (s : string) : string :=
  let r := String.rev s in
  match drop_prefix fence r with
  | Some before => String.rev (lstrip before)
  | None =>
      match drop_prefix (nl +:+ fence) r with
      | Some before => String.rev (lstrip before) +:+ nl
      | None => s
      end
  end.

Definition clean (response_text : string) : string :=
  let cleaned := strip response_text in
  let cleaned := sub_at_start "```json" cleaned in
  let cleaned := sub_at_start fence cleaned in
  let cleaned := sub_at_end cleaned in
  strip cleaned.

(** [if field not in result: result[field] = value] *)
Definition ensure (field : string) (value : pyval) (result : pyval) : Py.result pyval :=
  let* present := contains result field in
  if present then Ok result else setitem result field value.

Definition infer_probability (risk : string) : string :=
  if bool_decide (risk = "LOW") then "HIGH"
  else if bool_decide (risk = "MEDIUM") then "MODERATE"
  else "LOW".

Definition prob_map : gmap string Z :=
  {[ "VERY HIGH" := 85%Z; "HIGH" := 70%Z; "MODERATE" := 50%Z;
     "LOW" := 30%Z; "VERY LOW" := 15%Z ]}.

(** [prob_map.get(key, 50)] *)
Definition prob_map_get (key : pyval) : Py.result Z :=
  match key with
  | PStr s => Ok (default 50%Z (prob_map !! s))
  | PList _ | PDict _ => Raise (CasePreprocessor.unhashable key)
  | _ => Ok 50%Z
  end.

(** The field completion that follows a successful decode. *)
Definition complete (result : pyval) : Py.result pyval :=
  let* result := ensure "risk_level" (PStr "Unknown") result in
  let* result := ensure "reason" (PStr "No explanation provided") result in
  let* result := ensure "confidence" (PFloat 0.8) result in
  let* result :=
    ensure "recommended_action" (PStr "Follow standard recovery procedure") result in
  let* present := contains result "recovery_probability" in
  let* result :=
    if present then Ok result
    else
      let* level := get result "risk_level" (PStr "MEDIUM") in
      let* risk := upper_of level in
      setitem result "recovery_probability" (PStr (infer_probability risk)) in
  let* present := contains result "recovery_percentage" in
  if present then Ok result
  else
    let* probability := get result "recovery_probability" (PStr "MODERATE") in
    let* percentage := prob_map_get probability in
    setitem result "recovery_percentage" (PInt percentage).

(** What [_parse_response] returns when the text is not JSON. *)
Definition extracted (response_text : string) : gmap string pyval :=
  {[ "risk_level" := PStr (_extract_risk_level response_text);
     "confidence" := PFloat 0.7;
     "reason" := PStr (if (200 <? String.length response_text)%nat
                       then take 200 response_text else response_text);
     "recommended_action" := PStr "Manual review recommended" ]}.

(** What [classify_risk] returns when anything inside it raised. *)
Definition api_error (e : exn) : gmap string pyval :=
  {[ "risk_level" := PStr "ERROR";
     "confidence" := PFloat 0.0;
     "reason" := PStr ("API Error: " +:+ exn_msg e);
     "recommended_action" := PStr "Manual review required" ]}.

Section Parsing.
Context `{Builtins}.

Definition _parse_response (response_text : string) : Py.result pyval :=
  match (let* result := json_loads (clean response_text) in complete result) with
  | Ok result => Ok result
  | Raise e =>
      if is_exn_class JSONDecodeError e then Ok (PDict (extracted response_text))
      else Raise e
  end.

Definition full_prompt (self : t) (case_context : string) : string :=
  nl +:+ system_prompt self +:+ nl +:+ nl +:+ case_context +:+ nl +:+ nl
  +:+ "Analyze this case and provide risk classification in JSON format." +:+ nl.

Definition classify_risk (self : t) (case_context : string) : pyval :=
  match (let* text := generate_content self (full_prompt self case_context) in
         _parse_response text) with
  | Ok result => result
  | Raise e => PDict (api_error e)
  end.

End Parsing.
End GeminiRiskClassifier.

(* ===================================================================== *)
(** * result_storage.py: the decision ledger *)
(* ===================================================================== *)

Module ResultStorage.

(** The state of a [ResultStorage] object is [self.results], the list of
    decision records; [_save_results] rewrites the backing file with that
    same list, so the file adds nothing to the state. *)
Abbreviation ledger := (list (gmap string pyval)).

(** [f"{n:05d}"] for a natural number *)
Fixpoint zeros (n : nat) : string :=
  match n with
  | O => EmptyString
  | S k => String "0" (zeros k)
  end.

Definition zfill5 (n : nat) : string :=
  let digits := NilEmpty.string_of_uint (Nat.to_uint n) in
  zeros (5 - String.length digits) +:+ digits.

(** [f"DEC{n:05d}"] *)
Definition decision_id (n : nat) : string := "DEC" +:+ zfill5 n.

Definition field (d : gmap string pyval) (k : string) : pyval :=
  default PNone (d !! k).

(** [store_decision]: the new record and the ledger after the call.  [now]
    is [datetime.now().isoformat()] as read by this call. *)
Definition store_decision (now : string) (results : ledger)
    (case_id : string) (customer_name : pyval)
    (raw_case_data classification_result : pyval)
  : result (gmap string pyval * ledger) :=
  let* amount := get raw_case_data "amount" PNone in
  let* days_overdue := get raw_case_data "days_overdue" PNone in
  let* past_attempts := get raw_case_data "past_attempts" PNone in
  let* customer_type := get raw_case_data "customer_type" PNone in
  let* loan_type := get raw_case_data "loan_type" PNone in
  let* risk_level := get classification_result "risk_level" PNone in
  let* confidence := get classification_result "confidence" PNone in
  let* reason := get classification_result "reason" PNone in
  let* recommended_action := get classification_result "recommended_action" PNone in
  let decision_record : gmap string pyval :=
    {[ "decision_id" := PStr (decision_id (length results + 1));
       "case_id" := PStr case_id;
       "customer_name" := customer_name;
       "timestamp" := PStr now;
       "input_data" := PDict
         {[ "amount" := amount;
            "days_overdue" := days_overdue;
            "past_attempts" := past_attempts;
            "customer_type" := customer_type;
            "loan_type" := loan_type ]};
       "ai_decision" := PDict
         {[ "risk_level" := risk_level;
            "confidence" := confidence;
            "reason" := reason;
            "recommended_action" := recommended_action ]};
       "status" := PStr "pending_review" ]} in
  Ok (decision_record, results ++ [decision_record]).

Definition get_all_decisions (results : ledger) : ledger := results.

Definition get_decision_by_case (results : ledger) (case_id : string) : ledger :=
  List.filter (fun d => eq_str (field d "case_id") case_id) results.

Definition get_latest_decision (results : ledger) (case_id : string)
  : option (gmap string pyval) :=
  last (get_decision_by_case results case_id).

(** [d.get("ai_decision", {}).get("risk_level")] *)
Definition risk_level_of (d : gmap string pyval) : result pyval :=
  get (default (PDict ∅) (d !! "ai_decision")) "risk_level" PNone.

Fixpoint get_decisions_by_risk (results : ledger) (risk_level : string)
  : result ledger :=
  match results with
  | [] => Ok []
  | d :: rest =>
      let* level := risk_level_of d in
      let* others := get_decisions_by_risk rest risk_level in
      Ok (if eq_str level risk_level then d :: others else others)
  end.

(** [round(count/total * 100, 1)] *)
Definition percentage (count total : nat) : result float :=
  let* ratio := true_div (Z.of_nat count) (Z.of_nat total) in
  Ok (round1 (PrimFloat.mul ratio (Z2float 100))).

Definition get_statistics (results : ledger) : result (gmap string pyval) :=
  let total := length results in
  if bool_decide (total = 0%nat) then
    Ok {[ "total" := PInt 0; "high" := PInt 0; "medium" := PInt 0; "low" := PInt 0 ]}
  else
    let* highs := get_decisions_by_risk results "HIGH" in
    let high := length highs in
    let* mediums := get_decisions_by_risk results "MEDIUM" in
    let medium := length mediums in
    let* lows := get_decisions_by_risk results "LOW" in
    let low := length lows in
    let* high_percentage := percentage high total in
    let* medium_percentage := percentage medium total in
    let* low_percentage := percentage low total in
    Ok {[ "total" := PInt (Z.of_nat total);
          "high" := PInt (Z.of_nat high);
          "medium" := PInt (Z.of_nat medium);
          "low" := PInt (Z.of_nat low);
          "high_percentage" := PFloat high_percentage;
          "medium_percentage" := PFloat medium_percentage;
          "low_percentage" := PFloat low_percentage ]}.

Definition clear_all (results : ledger) : ledger := [].

End ResultStorage.

(* ===================================================================== *)
(** * case_fetcher.py: the case source *)
(* ===================================================================== *)

Module CaseFetcher.

(** [self.cases]: the case records loaded from the database file. *)
Fixpoint get_case_by_id (cases : list (gmap string pyval)) (case_id : string)
  : option (gmap string pyval) :=
  match cases with
  | [] => None
  | case :: rest =>
      if eq_str (default PNone (case !! "case_id")) case_id then Some case
      else get_case_by_id rest case_id
  end.

End CaseFetcher.

(* ===================================================================== *)
(** * pipeline.py: the orchestrator *)
(* ===================================================================== *)

Module RiskClassificationPipeline.

(** [self.classifier]: one of the two classes, chosen by [__init__]. *)
Inductive classifier :=
| Demo
| Gemini (g : GeminiRiskClassifier.t).

Record t := {
  fetcher : list (gmap string pyval);
  classifier_of : classifier;
  storage : ResultStorage.ledger
}.

Definition demo_mode (self : t) : bool :=
  match classifier_of self with Demo => true | Gemini _ => false end.

(** The dictionary [process_case] returns. *)
Record outcome := {
  success : bool;
  case_id : string;
  case_data : option (gmap string pyval);
  processed_context : option string;
  classification : option pyval;
  decision_record : option (gmap string pyval);
  error : option string
}.

Definition with_error (r : outcome) (msg : string) : outcome :=
  {| success := success r; case_id := case_id r; case_data := case_data r;
     processed_context := processed_context r; classification := classification r;
     decision_record := decision_record r; error := Some msg |}.

(** [format(v, ',')] can fail; its text only goes to the console. *)
Definition format_comma_check (v : pyval) : result unit :=
  match v with
  | PInt _ | PBool _ | PFloat _ => Ok tt
  | PStr _ => Raise (mk_exn ValueError "Cannot specify ',' with 's'.")
  | _ => Raise (mk_exn TypeError
           ("unsupported format string passed to " +:+ type_name v +:+ ".__format__"))
  end.

Section Pipeline.
Context `{Builtins}.

Definition classify (c : classifier) (context : string) : pyval :=
  match c with
  | Demo => PDict (DemoGeminiClassifier.classify_risk context)
  | Gemini g => GeminiRiskClassifier.classify_risk g context
  end.

(** Steps 2 to 4 of [process_case], inside the [try]: the outcome reached so
    far and the ledger travel along, so that an exception keeps both. *)
Definition run_steps (self : t) (now : string) (save_result : bool)
    (start : outcome) (case : gmap string pyval)
  : outcome * ResultStorage.ledger * option exn :=
  let r1 := {| success := false; case_id := case_id start; case_data := Some case;
               processed_context := None; classification := None;
               decision_record := None; error := None |} in
  match (let* name := getitem (PDict case) "customer_name" in
         let* amount := getitem (PDict case) "amount" in
         format_comma_check amount) with
  | Raise e => (r1, storage self, Some e)
  | Ok _ =>
  match (let* processed := CasePreprocessor.preprocess (Some case) in
         CasePreprocessor.generate_prompt_context processed) with
  | Raise e => (r1, storage self, Some e)
  | Ok context =>
  let r2 := {| success := false; case_id := case_id start; case_data := Some case;
               processed_context := Some context; classification := None;
               decision_record := None; error := None |} in
  let classification := classify (classifier_of self) context in
  let r3 := {| success := false; case_id := case_id start; case_data := Some case;
               processed_context := Some context;
               classification := Some classification;
               decision_record := None; error := None |} in
  match (let* level := getitem classification "risk_level" in
         get classification "confidence" (PStr "N/A")) with
  | Raise e => (r3, storage self, Some e)
  | Ok _ =>
  if save_result then
    match (let* name := getitem (PDict case) "customer_name" in
           ResultStorage.store_decision now (storage self) (case_id start) name
             (PDict case) classification) with
    | Raise e => (r3, storage self, Some e)
    | Ok (record, results) =>
        ({| success := true; case_id := case_id start; case_data := Some case;
            processed_context := Some context;
            classification := Some classification;
            decision_record := Some record; error := None |}, results, None)
    end
  else
    ({| success := true; case_id := case_id start; case_data := Some case;
        processed_context := Some context;
        classification := Some classification;
        decision_record := None; error := None |}, storage self, None)
  end end end.

(** [process_case]: the returned dictionary and the ledger after the call. *)
Definition process_case (self : t) (now : string) (case_id : string)
    (save_result : bool) : outcome * ResultStorage.ledger :=
  let result := {| success := false; case_id := case_id; case_data := None;
                   processed_context := None; classification := None;
                   decision_record := None; error := None |} in
  match CaseFetcher.get_case_by_id (fetcher self) case_id with
  | None =>
      (with_error result ("Case " +:+ case_id +:+ " not found in database"),
       storage self)
  | Some case =>
      if bool_decide (size case = 0%nat) then
        (with_error result ("Case " +:+ case_id +:+ " not found in database"),
         storage self)
      else
        match run_steps self now save_result result case with
        | (r, results, Some e) => (with_error r (exn_msg e), results)
        | (r, results, None) => (r, results)
        end
  end.

Definition get_statistics (self : t) : result (gmap string pyval) :=
  ResultStorage.get_statistics (storage self).

Definition get_all_decisions (self : t) : ResultStorage.ledger :=
  ResultStorage.get_all_decisions (storage self).

End Pipeline.
End RiskClassificationPipeline.

(* ===================================================================== *)
(** * Sample environment *)
(* ===================================================================== *)

(** A stand-in for the built-ins, used to run the model on concrete inputs:
    its decoder knows two documents and rejects every other text as
    [json.loads] rejects prose. *)
Module Samples.

Definition dq : string := String (ascii_of_nat 34) EmptyString.

(** The JSON object with the single member recovery_probability = HIGH *)
Definition high_probability_text : string :=
  "{" +:+ dq +:+ "recovery_probability" +:+ dq +:+ ": "
      +:+ dq +:+ "HIGH" +:+ dq +:+ "}".


Definition sample_json_loads (s : string) : result pyval :=
  if bool_decide (s = high_probability_text)
  then Ok (PDict {[ "recovery_probability" := PStr "HIGH" ]})
  else if bool_decide (s = "{}") then Ok (PDict ∅)
  else Raise (mk_exn JSONDecodeError "Expecting value: line 1 column 1 (char 0)").

Definition sample_builtins : Builtins :=
  {| repr := fun _ => "<repr>"; json_loads := sample_json_loads |}.


Definition unreachable : GeminiRiskClassifier.t :=
  {| GeminiRiskClassifier.system_prompt := "You are an AI Risk Assessment Agent.";
     GeminiRiskClassifier.generate_content :=
       fun _ => Raise (mk_exn OtherError "503 service unavailable") |}.

(** The case of the specification's high-risk scenario. *)
Definition scenario_case : gmap string pyval :=
  {[ "case_id" := PStr "CASE003";
     "customer_name" := PStr "ABC Enterprises";
     "amount" := PInt 600000;
     "days_overdue" := PInt 150;
     "past_attempts" := PInt 9;
     "customer_type" := PStr "Business";
     "loan_type" := PStr "Business Loan" ]}.

End Samples.


(* ===================================================================== *)
(** * Facts about strings *)
(* ===================================================================== *)

Module StrFacts.

(** [needle] occurs in [text] as a substring. *)
Definition occurs (needle text : string) : Prop :=
  ∃ pre post, text = pre +:+ needle +:+ post.

(** Some substring of [text] is [phrase] up to the case of its letters. *)
Definition occurs_ignoring_case (phrase text : string) : Prop :=
  ∃ pre mid post, text = pre +:+ mid +:+ post ∧ lower mid = lower phrase.

Lemma app_cons c s t : String c s +:+ t = String c (s +:+ t).
Proof. reflexivity. Qed.

Lemma app_empty_l s : "" +:+ s = s.
Proof. reflexivity. Qed.


Lemma app_assoc s t u : (s +:+ t) +:+ u = s +:+ (t +:+ u).
Proof. induction s as [|c s IH]; [done|]. by rewrite !app_cons, IH. Qed.

Lemma lower_app s t : lower (s +:+ t) = lower s +:+ lower t.
Proof.
  induction s as [|c s IH]; [done|].
  rewrite app_cons. cbn [lower]. by rewrite IH.
Qed.

Lemma upper_app s t : upper (s +:+ t) = upper s +:+ upper t.
Proof.
  induction s as [|c s IH]; [done|].
  rewrite app_cons. cbn [upper]. by rewrite IH.
Qed.

Lemma lower_length s : String.length (lower s) = String.length s.
Proof. induction s as [|c s IH]; cbn; [done|]. by rewrite IH. Qed.

(** A lower-cased text splits where the original does. *)
Lemma lower_split t a r :
  lower t = a +:+ r → ∃ x y, t = x +:+ y ∧ lower x = a ∧ lower y = r.
Proof.
  revert t. induction a as [|c a IH]; intros t Ht.
  - exists "", t. by rewrite !app_empty_l in *.
  - destruct t as [|d t]; [discriminate|].
    rewrite app_cons in Ht. cbn [lower] in Ht.
    injection Ht as Hc Ht. destruct (IH _ Ht) as (x & y & -> & Hx & Hy).
    exists (String d x), y. rewrite app_cons. cbn [lower]. by rewrite Hc, Hx.
Qed.

Lemma startswith_spec p s : startswith p s = true ↔ ∃ t, s = p +:+ t.
Proof.
  revert s. induction p as [|a p IH]; intros s; cbn [startswith].
  - split; [|done]. intros _. by exists s.
  - destruct s as [|b s].
    + split; [done|]. intros [t Ht]. by rewrite app_cons in Ht.
    + destruct (ascii_dec a b) as [->|Hne].
      * rewrite IH. split; intros [t Ht]; exists t.
        -- by rewrite app_cons, Ht.
        -- rewrite app_cons in Ht. by injection Ht.
      * split; [done|]. intros [t Ht]. rewrite app_cons in Ht.
        injection Ht as Hb _. by destruct Hne.
Qed.

(** The test [needle in hay] decides occurrence. *)
Lemma str_in_spec needle hay : str_in needle hay = true ↔ occurs needle hay.
Proof.
  unfold occurs. induction hay as [|c hay IH]; cbn [str_in].
  - rewrite orb_false_r, startswith_spec. split.
    + intros [t Ht]. by exists "", t.
    + intros (pre & post & Ht). destruct pre; [by exists post|].
      by rewrite app_cons in Ht.
  - rewrite orb_true_iff, startswith_spec, IH. split.
    + intros [[t Ht]|(pre & post & Ht)].
      * by exists "", t.
      * exists (String c pre), post. by rewrite app_cons, Ht.
    + intros (pre & post & Ht). destruct pre as [|d pre].
      * left. by exists post.
      * right. rewrite app_cons in Ht. injection Ht as _ Ht. by exists pre, post.
Qed.


Lemma occurs_refl_app needle post : occurs needle (needle +:+ post).
Proof. by exists "", post. Qed.

Lemma occurs_app_r needle pre text : occurs needle text → occurs needle (pre +:+ text).
Proof.
  intros (a & b & ->). exists (pre +:+ a), b. by rewrite app_assoc.
Qed.

Lemma occurs_app_l needle text post : occurs needle text → occurs needle (text +:+ post).
Proof.
  intros (a & b & ->). exists a, (b +:+ post). by rewrite !app_assoc.
Qed.

(** Occurrence in the lower-cased text is occurrence up to case. *)
Lemma occurs_lower phrase text :
  occurs (lower phrase) (lower text) ↔ occurs_ignoring_case phrase text.
Proof.
  split.
  - intros (a & b & Ht).
    destruct (lower_split _ _ _ Ht) as (x & y & -> & _ & Hy).
    destruct (lower_split _ _ _ Hy) as (m & z & -> & Hm & _).
    by exists x, m, z.
  - intros (pre & mid & post & -> & Hmid).
    exists (lower pre), (lower post). by rewrite !lower_app, Hmid.
Qed.

#[global] Instance occurs_dec needle text : Decision (occurs needle text).
Proof.
  destruct (str_in needle text) eqn:E.
  - left. by apply str_in_spec.
  - right. intros Ho. apply str_in_spec in Ho. congruence.
Defined.

#[global] Instance occurs_ignoring_case_dec phrase text :
  Decision (occurs_ignoring_case phrase text).
Proof.
  destruct (decide (occurs (lower phrase) (lower text))) as [Ho|Hn].
  - left. by apply occurs_lower.
  - right. intros Ho. by apply Hn, occurs_lower.
Defined.

End StrFacts.

(* ===================================================================== *)
(** * The rule-based classifier *)
(* ===================================================================== *)

Module RuleBasedFacts.
Import StrFacts DemoGeminiClassifier CasePreprocessor.

(** How many phrases of a list match a text, ignoring case. *)
Definition matched (phrases : list string) (text : string) : nat :=
  length (filter (λ p, occurs_ignoring_case p text) phrases).

(** The fields of a classification the specification names. *)
Definition summary (d : gmap string pyval) :=
  (d !! "risk_level", d !! "confidence",
   d !! "recovery_percentage", d !! "recovery_probability").

(** The context the pipeline hands to the classifier for a case. *)
Definition rendered `{Builtins} (case : gmap string pyval) : result string :=
  let* processed := preprocess (Some case) in
  generate_prompt_context processed.

Lemma score_matched phrases text :
  Forall (λ p, lower p = p) phrases →
  score phrases (lower text) = matched phrases text.
Proof.
  unfold score, matched. induction 1 as [|p phrases Hp _ IH]; [done|].
  cbn [List.filter]. rewrite filter_cons.
  destruct (str_in p (lower text)) eqn:E; case_decide as Hd.
  - cbn. by rewrite <- IH.
  - destruct Hd. apply occurs_lower. rewrite Hp. by apply str_in_spec.
  - apply occurs_lower in Hd. rewrite Hp in Hd. apply str_in_spec in Hd. congruence.
  - done.
Qed.

Lemma high_risk_indicators_lower : Forall (λ p, lower p = p) high_risk_indicators.
Proof. repeat constructor. Qed.

Lemma low_risk_indicators_lower : Forall (λ p, lower p = p) low_risk_indicators.
Proof. repeat constructor. Qed.

Lemma classify_risk_matched case_context :
  classify_risk case_context =
    if decide (2 ≤ matched high_risk_indicators case_context) then high_result
    else if decide (2 ≤ matched low_risk_indicators case_context) then low_result
    else medium_result.
Proof.
  unfold classify_risk.
  rewrite (score_matched _ _ high_risk_indicators_lower).
  rewrite (score_matched _ _ low_risk_indicators_lower).
  destruct (Nat.leb_spec 2 (matched high_risk_indicators case_context));
    destruct (Nat.leb_spec 2 (matched low_risk_indicators case_context));
    repeat case_decide; done || lia.
Qed.

(** Two of the high-risk phrases come from the overdue bucket alone. *)
Lemma critically_overdue_is_high text :
  occurs "critically overdue" (lower text) →
  occurs "immediate action required" (lower text) →
  classify_risk text = high_result.
Proof.
  intros H1 H2. apply str_in_spec in H1, H2.
  unfold classify_risk, score, high_risk_indicators. cbn [List.filter].
  rewrite H1, H2.
  by destruct (str_in "exhaustive recovery attempts" _),
              (str_in "very high amount" _).
Qed.

Section Scenario.
Context `{Builtins}.

Lemma lookup_nonempty (case : gmap string pyval) k v :
  case !! k = Some v → bool_decide (size case = 0%nat) = false.
Proof.
  intros Hk. apply bool_decide_eq_false. intros Hs.
  apply map_size_empty_iff in Hs. subst. by rewrite lookup_empty in Hk.
Qed.

(** What [rendered] yields once the five categories are known. *)
Lemma rendered_eq (case : gmap string pyval) a o t c l :
  bool_decide (size case = 0%nat) = false →
  _categorize_amount (default (PInt 0) (case !! "amount")) = Ok a →
  _categorize_overdue (default (PInt 0) (case !! "days_overdue")) = Ok o →
  _categorize_attempts (default (PInt 0) (case !! "past_attempts")) = Ok t →
  _categorize_customer_type (default (PStr "Individual") (case !! "customer_type")) = Ok c →
  _categorize_loan_type (default (PStr "Unknown") (case !! "loan_type")) = Ok l →
  rendered case =
    Ok (nl +:+ "CASE DETAILS FOR RISK ASSESSMENT:" +:+ nl
        +:+ rule +:+ nl
        +:+ "Case ID: " +:+ str (default PNone (case !! "case_id")) +:+ nl
        +:+ "Customer: " +:+ str (default PNone (case !! "customer_name")) +:+ nl
        +:+ nl
        +:+ "FINANCIAL CONTEXT:" +:+ nl
        +:+ "- Amount: " +:+ a +:+ nl
        +:+ "- Loan Type: " +:+ l +:+ nl
        +:+ nl
        +:+ "OVERDUE STATUS:" +:+ nl
        +:+ "- Duration: " +:+ o +:+ nl
        +:+ nl
        +:+ "RECOVERY HISTORY:" +:+ nl
        +:+ "- Past Attempts: " +:+ t +:+ nl
        +:+ nl
        +:+ "CUSTOMER PROFILE:" +:+ nl
        +:+ "- Type: " +:+ c +:+ nl
        +:+ rule +:+ nl).
Proof.
  intros Hne Ha Ho Ht Hc Hl. unfold rendered, preprocess.
  rewrite Hne, Ha, Ho, Ht, Hc, Hl. cbn [bind].
  unfold generate_prompt_context.
  rewrite (lookup_nonempty _ "case_id" (default PNone (case !! "case_id")))
    by by simplify_map_eq.
  unfold getitem. by simplify_map_eq.
Qed.

Lemma amount_600000 :
  _categorize_amount (PInt 600000) = Ok (very_high_amount_text "600,000").
Proof. vm_compute. reflexivity. Qed.

Lemma overdue_150 :
  _categorize_overdue (PInt 150)
  = Ok "Critically overdue (150 days - immediate action required)".
Proof. vm_compute. reflexivity. Qed.

Lemma attempts_9 :
  _categorize_attempts (PInt 9)
  = Ok "Exhaustive recovery attempts failed (9 attempts - customer unresponsive)".
Proof. vm_compute. reflexivity. Qed.

(** Look for a phrase in a text written as a concatenation: in the first
    piece that is a literal holding it. *)
Ltac find_occurrence :=
  first [ apply occurs_app_l; apply str_in_spec; vm_compute; reflexivity
        | apply occurs_app_r; find_occurrence ].

Lemma scenario_high (case : gmap string pyval) ctx :
  case !! "amount" = Some (PInt 600000) →
  case !! "days_overdue" = Some (PInt 150) →
  case !! "past_attempts" = Some (PInt 9) →
  rendered case = Ok ctx →
  classify_risk ctx = high_result.
Proof.
  intros Ha Hd Hp Hr.
  pose proof (lookup_nonempty _ _ _ Ha) as Hne.
  destruct (_categorize_customer_type
              (default (PStr "Individual") (case !! "customer_type"))) as [c|e] eqn:Hc;
  destruct (_categorize_loan_type
              (default (PStr "Unknown") (case !! "loan_type"))) as [l|e'] eqn:Hl.
  2-4: unfold rendered, preprocess in Hr;
       rewrite Hne, Ha, Hd, Hp in Hr; cbn [from_option id] in Hr;
       rewrite amount_600000, overdue_150, attempts_9 in Hr; cbn [bind] in Hr;
       rewrite Hc in Hr; cbn [bind] in Hr; rewrite ?Hl in Hr;
       discriminate Hr.
  rewrite (rendered_eq case (very_high_amount_text "600,000")
             "Critically overdue (150 days - immediate action required)"
             "Exhaustive recovery attempts failed (9 attempts - customer unresponsive)"
             c l Hne) in Hr.
  - injection Hr as <-.
    apply critically_overdue_is_high; rewrite !lower_app; find_occurrence.
  - rewrite Ha. apply amount_600000.
  - rewrite Hd. apply overdue_150.
  - rewrite Hp. apply attempts_9.
  - done.
  - done.
Qed.

Lemma customer_type_str ct :
  _categorize_customer_type (PStr ct)
  = Ok (if bool_decide (lower ct = "business")
        then "Business customer (higher stakes, formal recovery process needed)"
        else "Individual customer (personal approach may work)").
Proof. cbn [_categorize_customer_type]. by case_bool_decide. Qed.

(** With string-valued customer and loan types the context is rendered. *)
Lemma scenario_rendered (case : gmap string pyval) ct lt :
  case !! "amount" = Some (PInt 600000) →
  case !! "days_overdue" = Some (PInt 150) →
  case !! "past_attempts" = Some (PInt 9) →
  case !! "customer_type" = Some (PStr ct) →
  case !! "loan_type" = Some (PStr lt) →
  ∃ ctx, rendered case = Ok ctx.
Proof.
  intros Ha Hd Hp Hc Hl.
  pose proof (lookup_nonempty _ _ _ Ha) as Hne.
  eexists. eapply (rendered_eq case); [done|..].
  - rewrite Ha. apply amount_600000.
  - rewrite Hd. apply overdue_150.
  - rewrite Hp. apply attempts_9.
  - rewrite Hc. apply customer_type_str.
  - rewrite Hl. reflexivity.
Qed.

End Scenario.

(** C1: the rule-based classifier counts, ignoring case, the phrases of two
    fixed lists of four that occur in the context; with two or more high-risk
    phrases it answers HIGH (0.85, 30, LOW), else with two or more low-risk
    phrases LOW (0.90, 85, VERY HIGH), else MEDIUM (0.75, 55, MODERATE).  It is
    a total function of the context.  Every case with amount 600000, 150 days
    overdue and 9 past attempts whose context is rendered is classified HIGH
    with confidence 0.85, and the context is rendered whenever customer and
    loan type are strings. *)
Theorem rule_based_classification :
  length high_risk_indicators = 4%nat ∧
  length low_risk_indicators = 4%nat ∧
  (∀ case_context : string,
     classify_risk case_context =
       if decide (2 ≤ matched high_risk_indicators case_context) then high_result
       else if decide (2 ≤ matched low_risk_indicators case_context) then low_result
       else medium_result) ∧
  summary high_result
    = (Some (PStr "HIGH"), Some (PFloat 0.85), Some (PInt 30), Some (PStr "LOW")) ∧
  summary low_result
    = (Some (PStr "LOW"), Some (PFloat 0.90), Some (PInt 85), Some (PStr "VERY HIGH")) ∧
  summary medium_result
    = (Some (PStr "MEDIUM"), Some (PFloat 0.75), Some (PInt 55), Some (PStr "MODERATE")) ∧
  (∀ (B : Builtins) (case : gmap string pyval),
     case !! "amount" = Some (PInt 600000) →
     case !! "days_overdue" = Some (PInt 150) →
     case !! "past_attempts" = Some (PInt 9) →
     (∀ ctx, rendered case = Ok ctx →
        classify_risk ctx !! "risk_level" = Some (PStr "HIGH") ∧
        classify_risk ctx !! "confidence" = Some (PFloat 0.85)) ∧
     (∀ ct lt, case !! "customer_type" = Some (PStr ct) →
               case !! "loan_type" = Some (PStr lt) →
               ∃ ctx, rendered case = Ok ctx)).
Proof.
  split_and!; try reflexivity.
  - apply classify_risk_matched.
  - intros B case Ha Hd Hp. split.
    + intros ctx Hr. by rewrite (scenario_high case ctx Ha Hd Hp Hr).
    + intros ct lt Hc Hl. by eapply scenario_rendered.
Qed.

(** The scenario on the sample case. *)
Lemma rule_based_classification_witness :
  ∃ ctx, rendered (H := Samples.sample_builtins) Samples.scenario_case = Ok ctx ∧
         classify_risk ctx !! "risk_level" = Some (PStr "HIGH") ∧
         classify_risk ctx !! "confidence" = Some (PFloat 0.85).
Proof.
  destruct rule_based_classification as (_ & _ & _ & _ & _ & _ & Hs).
  destruct (Hs Samples.sample_builtins Samples.scenario_case) as [Hhigh Hren];
    [reflexivity..|].
  destruct (Hren "Business" "Business Loan") as [ctx Hctx]; [reflexivity..|].
  exists ctx. split; [exact Hctx | exact (Hhigh ctx Hctx)].
Defined.

End RuleBasedFacts.

(* ===================================================================== *)
(** * The amount buckets *)
(* ===================================================================== *)

Module AmountFacts.
Import CasePreprocessor.

(** [a < n] holds, or fails, as Python evaluates it. *)
Definition below (a : pyval) (n : Z) : Prop := lt_int a n = Ok true.
Definition not_below (a : pyval) (n : Z) : Prop := lt_int a n = Ok false.

Lemma below_int z n : below (PInt z) n ↔ (z < n)%Z.
Proof.
  unfold below. cbn [lt_int]. destruct (Z.ltb_spec z n); split; intros; try done; lia.
Qed.

Lemma not_below_int z n : not_below (PInt z) n ↔ (n ≤ z)%Z.
Proof.
  unfold not_below. cbn [lt_int]. destruct (Z.ltb_spec z n); split; intros; try done; lia.
Qed.

(** The decision of [_categorize_amount], on any value. *)
Lemma categorize_amount_cases (a : pyval) :
  (below a 20000 → _categorize_amount a = Ok low_amount_text) ∧
  (not_below a 20000 → below a 100000 → _categorize_amount a = Ok medium_amount_text) ∧
  (not_below a 20000 → not_below a 100000 → below a 500000 →
     _categorize_amount a = Ok high_amount_text) ∧
  (not_below a 20000 → not_below a 100000 → not_below a 500000 →
     _categorize_amount a =
       (let* shown := format_comma_0f a in Ok (very_high_amount_text shown))).
Proof.
  unfold below, not_below, _categorize_amount,
    amount_thresholds_low, amount_thresholds_medium, amount_thresholds_high.
  split_and!; intros; repeat (match goal with H : lt_int _ _ = _ |- _ => rewrite H; clear H end);
    reflexivity.
Qed.

(** An int below 2^53 is a float exactly. *)
Lemma int_to_double_exact z : (0 ≤ z < 2 ^ 53)%Z → int_to_double z = Ok z.
Proof.
  intros Hz. unfold int_to_double.
  destruct (Z.leb_spec (Z.log2 (Z.abs z) + 1) 53) as [|Hlt]; [done|].
  rewrite Z.abs_eq in Hlt by lia.
  destruct (decide (z = 0%Z)) as [->|Hnz]; [done|].
  assert (Z.log2 z < 53)%Z by (apply Z.log2_lt_pow2; lia). lia.
Qed.

Lemma format_comma_0f_int z :
  (0 ≤ z < 2 ^ 53)%Z → format_comma_0f (PInt z) = Ok (group_thousands (str_int z)).
Proof.
  intros Hz. cbn [format_comma_0f]. rewrite int_to_double_exact by done.
  cbn [bind]. unfold signed_grouped.
  destruct (Z.ltb_spec z 0); [lia|]. by rewrite Z.abs_eq by lia.
Qed.

(** C2, as the code has it: the bucket is decided by the amount alone, with
    the comparisons of the source against 20000, 100000 and 500000.  Below
    20000 the text is the Low one, from 20000 and below 100000 the Medium one,
    from 100000 and below 500000 the High one, from 500000 on the Very high
    one, which shows the amount as [,.0f] formats it: rounded to a whole
    number, with thousands separators, and for an integer below 2^53 the
    digits of the amount itself.  An amount exactly at a boundary belongs to
    the bucket above it, whose inclusive lower bound it is. *)
Theorem amount_buckets (a : pyval) (z : Z) :
  (* any value, as the source compares it *)
  (below a 20000 → _categorize_amount a = Ok low_amount_text) ∧
  (not_below a 20000 → below a 100000 → _categorize_amount a = Ok medium_amount_text) ∧
  (not_below a 20000 → not_below a 100000 → below a 500000 →
     _categorize_amount a = Ok high_amount_text) ∧
  (not_below a 20000 → not_below a 100000 → not_below a 500000 →
     _categorize_amount a =
       (let* shown := format_comma_0f a in Ok (very_high_amount_text shown))) ∧
  (* integer amounts *)
  ((z < 20000)%Z → _categorize_amount (PInt z) = Ok low_amount_text) ∧
  ((20000 ≤ z < 100000)%Z → _categorize_amount (PInt z) = Ok medium_amount_text) ∧
  ((100000 ≤ z < 500000)%Z → _categorize_amount (PInt z) = Ok high_amount_text) ∧
  ((500000 ≤ z < 2 ^ 53)%Z →
     _categorize_amount (PInt z)
     = Ok (very_high_amount_text (group_thousands (str_int z)))) ∧
  (* the boundaries, as integers and as floats *)
  _categorize_amount (PInt 20000) = Ok medium_amount_text ∧
  _categorize_amount (PInt 100000) = Ok high_amount_text ∧
  _categorize_amount (PInt 500000) = Ok (very_high_amount_text "500,000") ∧
  _categorize_amount (PFloat 20000) = Ok medium_amount_text ∧
  _categorize_amount (PFloat 100000) = Ok high_amount_text ∧
  _categorize_amount (PFloat 500000) = Ok (very_high_amount_text "500,000").
Proof.
  destruct (categorize_amount_cases a) as (H1 & H2 & H3 & H4).
  destruct (categorize_amount_cases (PInt z)) as (Z1 & Z2 & Z3 & Z4).
  split_and!; [exact H1 | exact H2 | exact H3 | exact H4 | ..].
  - intros. apply Z1. by apply below_int.
  - intros. apply Z2; [apply not_below_int | apply below_int]; lia.
  - intros. apply Z3; [apply not_below_int.. | apply below_int]; lia.
  - intros. rewrite Z4 by (apply not_below_int; lia).
    rewrite format_comma_0f_int by lia. reflexivity.
  - vm_compute. reflexivity.
  - vm_compute. reflexivity.
  - vm_compute. reflexivity.
  - vm_compute. reflexivity.
  - vm_compute. reflexivity.
  - vm_compute. reflexivity.
Qed.

(** The buckets on four sample amounts. *)
Lemma amount_buckets_witness :
  _categorize_amount (PInt 19999) = Ok low_amount_text ∧
  _categorize_amount (PInt 99999) = Ok medium_amount_text ∧
  _categorize_amount (PInt 499999) = Ok high_amount_text ∧
  _categorize_amount (PInt 600000) = Ok (very_high_amount_text "600,000").
Proof.
  split_and!.
  - destruct (amount_buckets (PInt 19999) 19999) as (_ & _ & _ & _ & Hz & _).
    apply Hz. lia.
  - destruct (amount_buckets (PInt 99999) 99999) as (_ & _ & _ & _ & _ & Hz & _).
    apply Hz. lia.
  - destruct (amount_buckets (PInt 499999) 499999) as (_ & _ & _ & _ & _ & _ & Hz & _).
    apply Hz. lia.
  - destruct (amount_buckets (PInt 600000) 600000)
      as (_ & _ & _ & _ & _ & _ & _ & Hz & _).
    apply Hz. lia.
Defined.

(** C2 as stated fails twice.  At the boundary 20000 the bucket is Medium,
    the upper of the two that meet there, and not Low; and the Very high text
    shows the amount rounded to a whole number, so 600000.75 appears as
    600,001. *)
Lemma amount_boundary_counterexample :
  _categorize_amount (PInt 20000) = Ok medium_amount_text ∧
  _categorize_amount (PInt 20000) ≠ Ok low_amount_text ∧
  _categorize_amount (PFloat 600000.75) = Ok (very_high_amount_text "600,001").
Proof. split_and!; [vm_compute; reflexivity | vm_compute; discriminate | vm_compute; reflexivity]. Qed.

End AmountFacts.

(* ===================================================================== *)
(** * The classifier backed by the service: parsing and failure containment *)
(* ===================================================================== *)

Module GeminiFacts.
Import StrFacts GeminiRiskClassifier.

(** The four fields every path sets, and the two of the recovery forecast. *)
Definition core_fields : list string :=
  [ "risk_level"; "confidence"; "reason"; "recommended_action" ].
Definition recovery_fields : list string :=
  [ "recovery_probability"; "recovery_percentage" ].

(** Membership of a literal in these lists, and the lack of it. *)
Ltac in_fields :=
  unfold core_fields, recovery_fields; cbn [app]; repeat constructor.
Ltac not_in_fields :=
  let Hin := fresh in
  intros Hin; unfold core_fields, recovery_fields in Hin; cbn [app] in Hin;
  repeat (apply elem_of_cons in Hin as [Hin|Hin]; [discriminate Hin|]);
  by apply elem_of_nil in Hin.

(** [d] with [k] set to [v] unless [d] has [k] already. *)
Definition filled (k : string) (v : pyval) (d : gmap string pyval)
  : gmap string pyval :=
  match d !! k with
  | Some _ => d
  | None => <[k := v]> d
  end.

Lemma lookup_filled k v (d : gmap string pyval) :
  filled k v d !! k = Some (default v (d !! k)).
Proof.
  unfold filled. destruct (d !! k) eqn:E; cbn; [done|]. apply lookup_insert_eq.
Qed.

Lemma lookup_filled_ne k k' v (d : gmap string pyval) :
  k ≠ k' → filled k v d !! k' = d !! k'.
Proof.
  intros Hne. unfold filled. destruct (d !! k); [done|]. by apply lookup_insert_ne.
Qed.

Lemma lookup_filled_Some k k' v x (d : gmap string pyval) :
  d !! k' = Some x → filled k v d !! k' = Some x.
Proof.
  intros Hx. destruct (decide (k = k')) as [->|Hne].
  - by rewrite lookup_filled, Hx.
  - by rewrite lookup_filled_ne.
Qed.

Lemma ensure_dict k v (d : gmap string pyval) :
  ensure k v (PDict d) = Ok (PDict (filled k v d)).
Proof.
  unfold ensure, filled. cbn [contains bind setitem].
  destruct (d !! k) eqn:E.
  - by rewrite bool_decide_eq_true_2.
  - rewrite bool_decide_eq_false_2; [done|]. by intros [? ?].
Qed.

(** The four defaulted fields of a decoded object. *)
Definition with_defaults (d : gmap string pyval) : gmap string pyval :=
  filled "recommended_action" (PStr "Follow standard recovery procedure")
    (filled "confidence" (PFloat 0.8)
       (filled "reason" (PStr "No explanation provided")
          (filled "risk_level" (PStr "Unknown") d))).

(** The recovery probability after completion: kept, or inferred from the
    upper-cased risk level, which has to be a string. *)
Definition with_probability (d4 : gmap string pyval) : result (gmap string pyval) :=
  match d4 !! "recovery_probability" with
  | Some _ => Ok d4
  | None =>
      let* risk := upper_of (default (PStr "MEDIUM") (d4 !! "risk_level")) in
      Ok (<["recovery_probability" := PStr (infer_probability risk)]> d4)
  end.

(** The recovery percentage after completion: kept, or looked up. *)
Definition with_percentage (d5 : gmap string pyval) : result (gmap string pyval) :=
  match d5 !! "recovery_percentage" with
  | Some _ => Ok d5
  | None =>
      let* percentage :=
        prob_map_get (default (PStr "MODERATE") (d5 !! "recovery_probability")) in
      Ok (<["recovery_percentage" := PInt percentage]> d5)
  end.

(** [complete] on a decoded object, step by step. *)
Lemma complete_dict (d : gmap string pyval) :
  complete (PDict d) =
    (let* d5 := with_probability (with_defaults d) in
     let* d6 := with_percentage d5 in
     Ok (PDict d6)).
Proof.
  unfold complete. do 4 (rewrite ensure_dict; cbn [bind]).
  fold (with_defaults d). unfold with_probability.
  cbn [contains bind].
  destruct (with_defaults d !! "recovery_probability") as [p|] eqn:Ep.
  - rewrite bool_decide_eq_true_2 by done. cbn [bind contains].
    unfold with_percentage.
    destruct (with_defaults d !! "recovery_percentage") as [q|] eqn:Eq.
    + by rewrite bool_decide_eq_true_2.
    + rewrite bool_decide_eq_false_2 by (by intros [? ?]).
      cbn [get bind].
      by destruct (prob_map_get _).
  - rewrite bool_decide_eq_false_2 by (by intros [? ?]).
    cbn [get bind].
    destruct (upper_of _) as [risk|e]; [|done]. cbn [bind setitem contains].
    unfold with_percentage.
    destruct (<["recovery_probability":=PStr (infer_probability risk)]>
                (with_defaults d) !! "recovery_percentage") as [q|] eqn:Eq.
    + by rewrite bool_decide_eq_true_2.
    + rewrite bool_decide_eq_false_2 by (by intros [? ?]).
      cbn [get bind].
      by destruct (prob_map_get _).
Qed.

Lemma with_defaults_kept (d : gmap string pyval) k x :
  d !! k = Some x → with_defaults d !! k = Some x.
Proof. intros Hx. unfold with_defaults. by do 4 apply lookup_filled_Some. Qed.

Lemma with_defaults_other (d : gmap string pyval) k :
  k ∉ core_fields → with_defaults d !! k = d !! k.
Proof.
  intros Hk. unfold with_defaults.
  rewrite !lookup_filled_ne; [done|..]; intros <-; apply Hk; in_fields.
Qed.

Lemma with_defaults_lookup (d : gmap string pyval) :
  with_defaults d !! "risk_level" = Some (default (PStr "Unknown") (d !! "risk_level")) ∧
  with_defaults d !! "reason"
    = Some (default (PStr "No explanation provided") (d !! "reason")) ∧
  with_defaults d !! "confidence" = Some (default (PFloat 0.8) (d !! "confidence")) ∧
  with_defaults d !! "recommended_action"
    = Some (default (PStr "Follow standard recovery procedure")
              (d !! "recommended_action")).
Proof.
  unfold with_defaults. split_and!.
  - rewrite !(lookup_filled_ne _ "risk_level") by done. apply lookup_filled.
  - rewrite !(lookup_filled_ne _ "reason") by done.
    by rewrite lookup_filled, lookup_filled_ne.
  - rewrite !(lookup_filled_ne _ "confidence") by done.
    by rewrite lookup_filled, !lookup_filled_ne.
  - by rewrite lookup_filled, !lookup_filled_ne.
Qed.

(** ** Which exceptions the completion can raise *)

(** Every exception [r] can raise satisfies [P]. *)
Definition raises_only {A} (P : exn → Prop) (r : result A) : Prop :=
  ∀ e, r = Raise e → P e.

Lemma raises_only_ok {A} P (a : A) : raises_only P (Ok a).
Proof. by intros e. Qed.

Lemma raises_only_bind {A B} P (r : result A) (k : A → result B) :
  raises_only P r → (∀ a, raises_only P (k a)) → raises_only P (bind r k).
Proof.
  intros Hr Hk e. destruct r as [a|e']; cbn [bind].
  - apply Hk.
  - intros [= <-]. by apply Hr.
Qed.

(** Not the decoder's exception class. *)
Definition not_decode_error (e : exn) : Prop :=
  is_exn_class JSONDecodeError e = false.

Lemma contains_raises v k : raises_only not_decode_error (contains v k).
Proof. intros e. destruct v; cbn; by intros [= <-]. Qed.

Lemma setitem_raises v k x : raises_only not_decode_error (setitem v k x).
Proof. intros e. destruct v; cbn; by intros [= <-]. Qed.

Lemma get_raises v k x : raises_only not_decode_error (get v k x).
Proof. intros e. destruct v; cbn; by intros [= <-]. Qed.

Lemma upper_of_raises v : raises_only not_decode_error (upper_of v).
Proof. intros e. destruct v; cbn; by intros [= <-]. Qed.

Lemma prob_map_get_raises v : raises_only not_decode_error (prob_map_get v).
Proof. intros e. destruct v; cbn; by intros [= <-]. Qed.

Lemma ensure_raises k x v : raises_only not_decode_error (ensure k x v).
Proof.
  apply raises_only_bind; [apply contains_raises|].
  intros []; [apply raises_only_ok | apply setitem_raises].
Qed.

Lemma complete_raises v : raises_only not_decode_error (complete v).
Proof.
  unfold complete.
  do 4 (apply raises_only_bind; [apply ensure_raises | intros ?]).
  apply raises_only_bind; [apply contains_raises | intros present].
  apply raises_only_bind.
  - destruct present; [apply raises_only_ok|].
    apply raises_only_bind; [apply get_raises | intros ?].
    apply raises_only_bind; [apply upper_of_raises | intros ?].
    apply setitem_raises.
  - intros ?. apply raises_only_bind; [apply contains_raises | intros present'].
    destruct present'; [apply raises_only_ok|].
    apply raises_only_bind; [apply get_raises | intros ?].
    apply raises_only_bind; [apply prob_map_get_raises | intros ?].
    apply setitem_raises.
Qed.

(** ** A value that is no dict passes the completion only unchanged *)

Definition is_dict (v : pyval) : Prop := ∃ d, v = PDict d.

Lemma ensure_not_dict k x v r :
  ¬ is_dict v → ensure k x v = Ok r → r = v ∧ contains v k = Ok true.
Proof.
  intros Hv. unfold ensure.
  destruct v; cbn [contains bind setitem]; try discriminate.
  - destruct (str_in k s); [by intros [= <-] | discriminate].
  - destruct (existsb _ l); [by intros [= <-] | discriminate].
  - destruct Hv. by eexists.
Qed.

Lemma get_not_dict v k x : ¬ is_dict v → ∃ e, get v k x = Raise e.
Proof.
  intros Hv. destruct v; cbn; eauto. destruct Hv. by eexists.
Qed.

Lemma complete_not_dict v r :
  ¬ is_dict v → complete v = Ok r →
  r = v ∧ ∀ k, k ∈ core_fields ++ recovery_fields → contains v k = Ok true.
Proof.
  intros Hv. unfold complete.
  destruct (ensure "risk_level" _ v) as [r1|] eqn:E1; [|discriminate].
  apply ensure_not_dict in E1 as [-> H1]; [|done]. cbn [bind].
  destruct (ensure "reason" _ v) as [r2|] eqn:E2; [|discriminate].
  apply ensure_not_dict in E2 as [-> H2]; [|done]. cbn [bind].
  destruct (ensure "confidence" _ v) as [r3|] eqn:E3; [|discriminate].
  apply ensure_not_dict in E3 as [-> H3]; [|done]. cbn [bind].
  destruct (ensure "recommended_action" _ v) as [r4|] eqn:E4; [|discriminate].
  apply ensure_not_dict in E4 as [-> H4]; [|done]. cbn [bind].
  destruct (contains v "recovery_probability") as [[]|] eqn:E5; cbn [bind];
    [| destruct (get_not_dict v "risk_level" (PStr "MEDIUM") Hv) as [e ->];
       discriminate | discriminate].
  destruct (contains v "recovery_percentage") as [[]|] eqn:E6; cbn [bind];
    [| destruct (get_not_dict v "recovery_probability" (PStr "MODERATE") Hv) as [e ->];
       discriminate | discriminate].
  intros [= <-]. split; [done|].
  intros k Hk. unfold core_fields, recovery_fields in Hk. cbn [app] in Hk.
  repeat (apply elem_of_cons in Hk as [->|Hk]; [done|]).
  by apply elem_of_nil in Hk.
Qed.

(** ** What the completion yields on a decoded object *)



(** [d'] is [d] completed: what [d] has is kept, nothing but the six fields
    is added, and each missing field has the value of the policy. *)
Definition completed_from (d d' : gmap string pyval) : Prop :=
  (∀ k x, d !! k = Some x → d' !! k = Some x) ∧
  (∀ k, k ∉ core_fields ++ recovery_fields → d' !! k = d !! k) ∧
  d' !! "risk_level" = Some (default (PStr "Unknown") (d !! "risk_level")) ∧
  d' !! "reason" = Some (default (PStr "No explanation provided") (d !! "reason")) ∧
  d' !! "confidence" = Some (default (PFloat 0.8) (d !! "confidence")) ∧
  d' !! "recommended_action"
    = Some (default (PStr "Follow standard recovery procedure")
              (d !! "recommended_action")) ∧
  (∃ p, d' !! "recovery_probability" = Some p ∧
        (d !! "recovery_probability" = None →
         ∃ s, d' !! "risk_level" = Some (PStr s) ∧
              p = PStr (infer_probability (upper s)))) ∧
  (∃ q, d' !! "recovery_percentage" = Some q ∧
        (d !! "recovery_percentage" = None →
         ∃ p n, d' !! "recovery_probability" = Some p ∧
                prob_map_get p = Ok n ∧ q = PInt n)).

Lemma with_probability_ok (d4 d5 : gmap string pyval) :
  with_probability d4 = Ok d5 →
  (∀ k, k ≠ "recovery_probability" → d5 !! k = d4 !! k) ∧
  ∃ p, d5 !! "recovery_probability" = Some p ∧
       (d4 !! "recovery_probability" = Some p ∨
        d4 !! "recovery_probability" = None ∧
        ∃ s, default (PStr "MEDIUM") (d4 !! "risk_level") = PStr s ∧
             p = PStr (infer_probability (upper s))).
Proof.
  unfold with_probability.
  destruct (d4 !! "recovery_probability") as [p|] eqn:Ep.
  - intros [= <-]. split; [done|]. exists p. auto.
  - destruct (default (PStr "MEDIUM") (d4 !! "risk_level")) as [| | | |s| |] eqn:El;
      cbn [upper_of bind]; try discriminate.
    intros [= <-]. split.
    + intros k Hk. by rewrite lookup_insert_ne.
    + eexists. rewrite lookup_insert_eq. split; [done|]. right. eauto.
Qed.

Lemma with_percentage_ok (d5 d6 : gmap string pyval) :
  with_percentage d5 = Ok d6 →
  (∀ k, k ≠ "recovery_percentage" → d6 !! k = d5 !! k) ∧
  ∃ q, d6 !! "recovery_percentage" = Some q ∧
       (d5 !! "recovery_percentage" = Some q ∨
        d5 !! "recovery_percentage" = None ∧
        ∃ n, prob_map_get (default (PStr "MODERATE") (d5 !! "recovery_probability"))
             = Ok n ∧ q = PInt n).
Proof.
  unfold with_percentage.
  destruct (d5 !! "recovery_percentage") as [q|] eqn:Eq.
  - intros [= <-]. split; [done|]. exists q. auto.
  - destruct (prob_map_get _) as [n|] eqn:En; cbn [bind]; [|discriminate].
    intros [= <-]. split.
    + intros k Hk. by rewrite lookup_insert_ne.
    + eexists. rewrite lookup_insert_eq. split; [done|]. right. eauto.
Qed.

Lemma complete_dict_ok (d : gmap string pyval) r :
  complete (PDict d) = Ok r → ∃ d', r = PDict d' ∧ completed_from d d'.
Proof.
  rewrite complete_dict.
  destruct (with_probability (with_defaults d)) as [d5|] eqn:E5; [|discriminate].
  cbn [bind].
  destruct (with_percentage d5) as [d6|] eqn:E6; [|discriminate].
  cbn [bind]. intros [= <-]. exists d6. split; [done|].
  apply with_probability_ok in E5 as (O5 & p & Hp & Hp').
  apply with_percentage_ok in E6 as (O6 & q & Hq & Hq').
  destruct (with_defaults_lookup d) as (L1 & L2 & L3 & L4).
  assert (K5 : ∀ k x, with_defaults d !! k = Some x → d5 !! k = Some x).
  { intros k x Hx. destruct (decide (k = "recovery_probability")) as [->|Hk].
    - destruct Hp' as [Hp'|[Hp' _]]; congruence.
    - by rewrite O5. }
  assert (K6 : ∀ k x, d5 !! k = Some x → d6 !! k = Some x).
  { intros k x Hx. destruct (decide (k = "recovery_percentage")) as [->|Hk].
    - destruct Hq' as [Hq'|[Hq' _]]; congruence.
    - by rewrite O6. }
  unfold completed_from. split_and!.
  - intros k x Hx. by apply K6, K5, with_defaults_kept.
  - intros k Hk.
    rewrite O6 by (intros ->; apply Hk; in_fields).
    rewrite O5 by (intros ->; apply Hk; in_fields).
    apply with_defaults_other. intros Hc. apply Hk, elem_of_app. by left.
  - by apply K6, K5.
  - by apply K6, K5.
  - by apply K6, K5.
  - by apply K6, K5.
  - exists p. split; [by apply K6|]. intros Hnone.
    rewrite with_defaults_other in Hp' by not_in_fields.
    destruct Hp' as [Hp'|(_ & s & Hs & ->)]; [congruence|].
    exists s. split; [|done]. apply K6, K5.
    rewrite L1 in Hs |- *. cbn [from_option id] in Hs. by rewrite Hs.
  - exists q. split; [done|]. intros Hnone.
    rewrite O5, with_defaults_other in Hq' by (done || not_in_fields).
    destruct Hq' as [Hq'|(_ & n & Hn & ->)]; [congruence|].
    exists p, n. split_and!; [by apply K6 | | done].
    by rewrite Hp in Hn.
Qed.



(** ** The keyword scan and the truncation of the fallback *)







(** ** The parser and the classifier *)

Section Parsing.
Context `{Builtins}.

Lemma parse_decoded text v :
  json_loads (clean text) = Ok v → _parse_response text = complete v.
Proof.
  intros Hv. unfold _parse_response. rewrite Hv. cbn [bind].
  destruct (complete v) as [r|e] eqn:E; [done|].
  by rewrite (complete_raises v e E).
Qed.


Lemma parse_other_error text e :
  json_loads (clean text) = Raise e → is_exn_class JSONDecodeError e = false →
  _parse_response text = Raise e.
Proof. intros He Hc. unfold _parse_response. by rewrite He; cbn [bind]; rewrite Hc. Qed.

Lemma classify_risk_answered self ctx text :
  generate_content self (full_prompt self ctx) = Ok text →
  classify_risk self ctx =
    match _parse_response text with
    | Ok result => result
    | Raise e => PDict (api_error e)
    end.
Proof. intros Ht. unfold classify_risk. by rewrite Ht. Qed.

Lemma classify_risk_failed self ctx e :
  generate_content self (full_prompt self ctx) = Raise e →
  classify_risk self ctx = PDict (api_error e).
Proof. intros He. unfold classify_risk. by rewrite He. Qed.






(** C4: a response that decodes to a JSON object with recovery_probability
    HIGH and no recovery_percentage is parsed into a result whose
    recovery_percentage is 70, the entry of the probability table; the
    classifier returns that result. *)
Theorem missing_percentage_completed_to_70 (text : string) (d : gmap string pyval) :
  json_loads (clean text) = Ok (PDict d) →
  d !! "recovery_probability" = Some (PStr "HIGH") →
  d !! "recovery_percentage" = None →
  prob_map !! "HIGH" = Some 70%Z ∧
  ∃ d', _parse_response text = Ok (PDict d') ∧
        d' !! "recovery_probability" = Some (PStr "HIGH") ∧
        d' !! "recovery_percentage" = Some (PInt 70) ∧
        ∀ self ctx, generate_content self (full_prompt self ctx) = Ok text →
                    classify_risk self ctx = PDict d'.
Proof.
  intros Hd Hprob Hpct. split; [reflexivity|].
  assert (complete (PDict d)
          = Ok (PDict (<["recovery_percentage" := PInt 70]> (with_defaults d)))) as Hc.
  { rewrite complete_dict. unfold with_probability.
    rewrite (with_defaults_kept d _ _ Hprob). cbn [bind]. unfold with_percentage.
    rewrite (with_defaults_other d "recovery_percentage"), Hpct by not_in_fields.
    by rewrite (with_defaults_kept d _ _ Hprob). }
  eexists. split_and!.
  - by rewrite (parse_decoded _ _ Hd), Hc.
  - rewrite lookup_insert_ne by done. by apply with_defaults_kept.
  - apply lookup_insert_eq.
  - intros self ctx Ht.
    by rewrite (classify_risk_answered _ _ _ Ht), (parse_decoded _ _ Hd), Hc.
Qed.


(** C6: a failure of the service does not leave [classify_risk]; the call
    returns the sentinel with risk level ERROR, confidence 0.0, the message
    of the error after the words API Error as the reason, and Manual review
    required as the action.  The same holds for anything the parser raises. *)
Theorem service_failure_contained (self : t) (ctx : string) :
  (∀ e, generate_content self (full_prompt self ctx) = Raise e →
        ∃ d, classify_risk self ctx = PDict d ∧
             d !! "risk_level" = Some (PStr "ERROR") ∧
             d !! "confidence" = Some (PFloat 0.0) ∧
             d !! "reason" = Some (PStr ("API Error: " +:+ exn_msg e)) ∧
             d !! "recommended_action" = Some (PStr "Manual review required")) ∧
  (∀ text e, generate_content self (full_prompt self ctx) = Ok text →
             _parse_response text = Raise e →
             classify_risk self ctx = PDict (api_error e)) ∧
  (∀ e, api_error e !! "risk_level" = Some (PStr "ERROR") ∧
        api_error e !! "confidence" = Some (PFloat 0.0) ∧
        api_error e !! "reason" = Some (PStr ("API Error: " +:+ exn_msg e)) ∧
        api_error e !! "recommended_action" = Some (PStr "Manual review required")).
Proof.
  split_and!.
  - intros e He. exists (api_error e).
    split; [by apply classify_risk_failed|]. by split_and!.
  - intros text e Ht Hp. by rewrite (classify_risk_answered _ _ _ Ht), Hp.
  - intros e. by split_and!.
Qed.


End Parsing.

(** C4 on a fenced sample response. *)
Lemma missing_percentage_completed_to_70_witness :
  ∃ d', _parse_response (H := Samples.sample_builtins)
          ("```json" +:+ nl +:+ Samples.high_probability_text +:+ nl +:+ "```")
        = Ok (PDict d') ∧
        d' !! "recovery_percentage" = Some (PInt 70).
Proof.
  destruct (missing_percentage_completed_to_70 (H := Samples.sample_builtins)
              ("```json" +:+ nl +:+ Samples.high_probability_text +:+ nl +:+ "```")
              {[ "recovery_probability" := PStr "HIGH" ]})
    as (_ & d' & Hp & _ & Hpct & _); [reflexivity..|].
  exists d'. split; [exact Hp | exact Hpct].
Defined.


(** C6 on an unreachable service. *)
Lemma service_failure_contained_witness :
  ∃ d, classify_risk (H := Samples.sample_builtins) Samples.unreachable "context" = PDict d ∧
       d !! "risk_level" = Some (PStr "ERROR") ∧
       d !! "confidence" = Some (PFloat 0.0) ∧
       d !! "reason" = Some (PStr "API Error: 503 service unavailable") ∧
       d !! "recommended_action" = Some (PStr "Manual review required").
Proof.
  destruct (service_failure_contained (H := Samples.sample_builtins)
              Samples.unreachable "context") as (Hfail & _).
  exact (Hfail (mk_exn OtherError "503 service unavailable") eq_refl).
Defined.



End GeminiFacts.

(* ===================================================================== *)
(** * The decision ledger: appending and numbering *)
(* ===================================================================== *)

Module LedgerFacts.
Import StrFacts ResultStorage.




(** The ledgers the two mutating operations build from the empty one. *)
Inductive reachable : ledger → Prop :=
| reachable_empty : reachable []
| reachable_store now results case_id customer_name raw cls record results' :
    reachable results →
    store_decision now results case_id customer_name (PDict raw) (PDict cls)
      = Ok (record, results') →
    reachable results'
| reachable_clear results : reachable results → reachable (clear_all results).











(** What one call of [store_decision] does. *)
Lemma store_decision_appends now (results : ledger) case_id customer_name
    (raw cls : gmap string pyval) :
  ∃ record,
    store_decision now results case_id customer_name (PDict raw) (PDict cls)
      = Ok (record, results ++ [record]) ∧
    record !! "decision_id" = Some (PStr (decision_id (length results + 1))) ∧
    record !! "case_id" = Some (PStr case_id) ∧
    record !! "status" = Some (PStr "pending_review").
Proof.
  unfold store_decision. cbn [get bind]. eexists. split; [reflexivity|].
  by split_and!.
Qed.

Lemma store_decision_inv now (results : ledger) case_id customer_name
    (raw cls : gmap string pyval) record results' :
  store_decision now results case_id customer_name (PDict raw) (PDict cls)
    = Ok (record, results') →
  results' = results ++ [record] ∧
  record !! "decision_id" = Some (PStr (decision_id (length results + 1))).
Proof.
  intros Hs.
  destruct (store_decision_appends now results case_id customer_name raw cls)
    as (r & Hr & Hid & _).
  rewrite Hr in Hs. injection Hs as <- <-. done.
Qed.










End LedgerFacts.

(* ===================================================================== *)
(** * The decision ledger: statistics *)
(* ===================================================================== *)

Module StatisticsFacts.
Import ResultStorage.

(** The record's risk level can be read and is the string [level]. *)
Definition has_level (level : string) (d : gmap string pyval) : bool :=
  match risk_level_of d with
  | Ok v => eq_str v level
  | Raise _ => false
  end.

(** The value of [round(count/total * 100, 1)] when [total] is not 0. *)
Definition percent (count total : nat) : float :=
  round1 (PrimFloat.mul
            (SF2Prim (SFdiv prec emax (int_to_SF (Z.of_nat count))
                        (int_to_SF (Z.of_nat total))))
            (Z2float 100)).

(** How many records of the ledger have the level. *)
Definition level_count (level : string) (results : ledger) : nat :=
  length (List.filter (has_level level) results).

(** The record's risk level can be read: its ai_decision, when it has one,
    is a dict. *)
Definition readable (d : gmap string pyval) : Prop := ∃ v, risk_level_of d = Ok v.

(** The record counts in none of the three buckets. *)
Definition unlevelled (d : gmap string pyval) : Prop :=
  has_level "HIGH" d = false ∧ has_level "MEDIUM" d = false ∧ has_level "LOW" d = false.

(** The integer under a key of the statistics. *)
Definition stat (st : gmap string pyval) (k : string) : option Z :=
  match st !! k with
  | Some (PInt z) => Some z
  | _ => None
  end.

Lemma percentage_ok count total :
  total ≠ 0 → percentage count total = Ok (percent count total).
Proof.
  intros Ht. unfold percentage, true_div.
  destruct (Z.eqb_spec (Z.of_nat total) 0); [lia|]. reflexivity.
Qed.

Lemma get_decisions_by_risk_readable results level :
  Forall readable results →
  get_decisions_by_risk results level = Ok (List.filter (has_level level) results).
Proof.
  induction 1 as [|d results [v Hv] _ IH]; [done|].
  cbn [get_decisions_by_risk List.filter]. unfold has_level.
  rewrite Hv, IH. cbn [bind]. by destruct (eq_str v level).
Qed.

Lemma get_decisions_by_risk_ok results level l :
  get_decisions_by_risk results level = Ok l → Forall readable results.
Proof.
  revert l. induction results as [|d results IH]; intros l; [by constructor|].
  cbn [get_decisions_by_risk].
  destruct (risk_level_of d) as [v|] eqn:Hv; [|discriminate]. cbn [bind].
  destruct (get_decisions_by_risk results level) as [l'|]; [|discriminate].
  intros _. constructor; [by exists v | by eapply IH].
Qed.

(** A record built by [store_decision] is readable. *)
Lemma stored_readable now results case_id customer_name raw cls record results' :
  store_decision now results case_id customer_name raw cls = Ok (record, results') →
  readable record.
Proof.
  unfold store_decision.
  repeat (match goal with
          | |- context [get ?v ?k ?x] => destruct (get v k x); [|discriminate]
          end; cbn [bind]).
  intros [= <- _]. by eexists.
Qed.

Lemma reachable_readable results : LedgerFacts.reachable results → Forall readable results.
Proof.
  induction 1 as [|now results case_id customer_name raw cls record results' _ IH Hs
                  |results _ _]; [by constructor| |by constructor].
  pose proof (stored_readable _ _ _ _ _ _ _ _ Hs) as Hr.
  apply LedgerFacts.store_decision_inv in Hs as [-> _].
  apply Forall_app. split; [done|]. by constructor.
Qed.

Lemma has_level_exclusive d :
  (if has_level "HIGH" d then 1 else 0) + (if has_level "MEDIUM" d then 1 else 0)
  + (if has_level "LOW" d then 1 else 0) ≤ 1.
Proof.
  unfold has_level. destruct (risk_level_of d) as [v|]; [|cbn; lia].
  destruct v; cbn [eq_str]; try (cbn; lia).
  repeat case_bool_decide; subst; try discriminate; cbn; lia.
Qed.

(** The three buckets are disjoint, so together they hold at most every
    record, and fewer when some record is in none. *)
Lemma level_counts_le results :
  level_count "HIGH" results + level_count "MEDIUM" results + level_count "LOW" results
  ≤ length results.
Proof.
  unfold level_count. induction results as [|d results IH]; [done|].
  cbn [List.filter length]. pose proof (has_level_exclusive d).
  destruct (has_level "HIGH" d), (has_level "MEDIUM" d), (has_level "LOW" d);
    cbn [length] in *; lia.
Qed.

Lemma level_counts_lt results d :
  d ∈ results → unlevelled d →
  level_count "HIGH" results + level_count "MEDIUM" results + level_count "LOW" results
  < length results.
Proof.
  unfold level_count. intros Hd (Hh & Hm & Hl).
  induction results as [|d' results IH]; [by apply elem_of_nil in Hd|].
  cbn [List.filter length].
  apply elem_of_cons in Hd as [<-|Hd].
  - rewrite Hh, Hm, Hl. pose proof (level_counts_le results).
    unfold level_count in *. lia.
  - specialize (IH Hd). pose proof (has_level_exclusive d').
    destruct (has_level "HIGH" d'), (has_level "MEDIUM" d'), (has_level "LOW" d');
      cbn [length] in *; lia.
Qed.

(** What [get_statistics] returns, when it returns. *)
Lemma get_statistics_ok results st :
  get_statistics results = Ok st →
  Forall readable results ∧
  stat st "total" = Some (Z.of_nat (length results)) ∧
  stat st "high" = Some (Z.of_nat (level_count "HIGH" results)) ∧
  stat st "medium" = Some (Z.of_nat (level_count "MEDIUM" results)) ∧
  stat st "low" = Some (Z.of_nat (level_count "LOW" results)).
Proof.
  unfold get_statistics. case_bool_decide as Hlen.
  - intros [= <-]. destruct results; [|done]. by split_and!.
  - destruct (get_decisions_by_risk results "HIGH") as [h|] eqn:Hh; [|discriminate].
    pose proof (get_decisions_by_risk_ok _ _ _ Hh) as Hr.
    rewrite (get_decisions_by_risk_readable _ "HIGH" Hr) in Hh. injection Hh as <-.
    rewrite !(get_decisions_by_risk_readable _ _ Hr). cbn [bind].
    rewrite !percentage_ok by done. cbn [bind].
    intros [= <-]. by split_and!.
Qed.

Lemma get_statistics_readable results :
  results ≠ [] → Forall readable results →
  get_statistics results =
    Ok {[ "total" := PInt (Z.of_nat (length results));
          "high" := PInt (Z.of_nat (level_count "HIGH" results));
          "medium" := PInt (Z.of_nat (level_count "MEDIUM" results));
          "low" := PInt (Z.of_nat (level_count "LOW" results));
          "high_percentage" :=
            PFloat (percent (level_count "HIGH" results) (length results));
          "medium_percentage" :=
            PFloat (percent (level_count "MEDIUM" results) (length results));
          "low_percentage" :=
            PFloat (percent (level_count "LOW" results) (length results)) ]}.
Proof.
  intros Hne Hr. unfold get_statistics.
  rewrite bool_decide_eq_false_2 by (by destruct results).
  rewrite !(get_decisions_by_risk_readable _ _ Hr). cbn [bind].
  by rewrite !percentage_ok by (by destruct results).
Qed.

Lemma unlevelled_other d v :
  risk_level_of d = Ok v →
  v ≠ PStr "HIGH" → v ≠ PStr "MEDIUM" → v ≠ PStr "LOW" → unlevelled d.
Proof.
  intros Hv Hh Hm Hl. unfold unlevelled, has_level. rewrite Hv.
  destruct v; cbn [eq_str]; try done.
  split_and!; apply bool_decide_eq_false; congruence.
Qed.

(** Two decision records as [store_decision] writes them, cut down to the
    part the statistics read: one classified HIGH, one the sentinel of a
    failed classification. *)
Definition high_record : gmap string pyval :=
  {[ "decision_id" := PStr "DEC00001";
     "ai_decision" := PDict {[ "risk_level" := PStr "HIGH" ]} ]}.

Definition error_record : gmap string pyval :=
  {[ "decision_id" := PStr "DEC00002";
     "ai_decision" := PDict {[ "risk_level" := PStr "ERROR" ]} ]}.

(** C8: on the empty ledger [get_statistics] returns total 0 and high,
    medium and low 0, with no percentage key, and does not raise: the
    division that a total of 0 would make fail is not reached.  On a ledger
    that is not empty and whose records can be read (as those of every ledger
    built by [store_decision] and [clear_all] can) it returns the number of
    records, the number of records of each level, and for each level
    [round(count/total * 100, 1)]: the float nearest to the one-decimal
    number nearest to the percentage. *)
Theorem statistics_of_a_ledger (results : ledger) :
  (∃ st, get_statistics [] = Ok st ∧
         st !! "total" = Some (PInt 0) ∧ st !! "high" = Some (PInt 0) ∧
         st !! "medium" = Some (PInt 0) ∧ st !! "low" = Some (PInt 0) ∧
         st !! "high_percentage" = None ∧ st !! "medium_percentage" = None ∧
         st !! "low_percentage" = None ∧ size st = 4) ∧
  (results ≠ [] → Forall readable results →
   ∃ st, get_statistics results = Ok st ∧
         st !! "total" = Some (PInt (Z.of_nat (length results))) ∧
         st !! "high" = Some (PInt (Z.of_nat (level_count "HIGH" results))) ∧
         st !! "medium" = Some (PInt (Z.of_nat (level_count "MEDIUM" results))) ∧
         st !! "low" = Some (PInt (Z.of_nat (level_count "LOW" results))) ∧
         st !! "high_percentage"
           = Some (PFloat (percent (level_count "HIGH" results) (length results))) ∧
         st !! "medium_percentage"
           = Some (PFloat (percent (level_count "MEDIUM" results) (length results))) ∧
         st !! "low_percentage"
           = Some (PFloat (percent (level_count "LOW" results) (length results)))) ∧
  (LedgerFacts.reachable results → Forall readable results) ∧
  (∀ count total, total ≠ 0 → percentage count total = Ok (percent count total)) ∧
  (∀ count, ∃ e, percentage count 0 = Raise e ∧ exn_cls e = ZeroDivisionError) ∧
  (∀ x s m e k,
     Prim2SF x = S754_finite s m e → (e < 0)%Z →
     round_half_even (10 * Z.pos m) (2 ^ (- e)) = Z.pos k →
     round1 x = SF2Prim (SFdiv prec emax (S754_finite s k 0) (S754_finite false 10 0))) ∧
  percent 1 3 = 33.3%float ∧
  percent 2 3 = 66.7%float ∧
  percent 1 16 = 6.2%float ∧
  percent 3 3 = 100%float.
Proof.
  split_and!.
  - eexists. split; [reflexivity|]. by split_and!.
  - intros Hne Hr. eexists. split; [by apply get_statistics_readable|].
    by split_and!.
  - apply reachable_readable.
  - apply percentage_ok.
  - intros count. eexists. split; reflexivity.
  - intros x s m e k Hx He Hk. unfold round1. rewrite Hx, Hk.
    by destruct (Z.leb_spec 0 e); [lia|].
  - vm_compute. reflexivity.
  - vm_compute. reflexivity.
  - vm_compute. reflexivity.
  - vm_compute. reflexivity.
Qed.

(** The statistics of a ledger of two HIGH records and one ERROR record. *)
Lemma statistics_of_a_ledger_witness :
  ∃ st, get_statistics [high_record; error_record; high_record] = Ok st ∧
        st !! "total" = Some (PInt 3) ∧
        st !! "high" = Some (PInt 2) ∧
        st !! "high_percentage" = Some (PFloat 66.7) ∧
        st !! "low_percentage" = Some (PFloat 0).
Proof.
  destruct (statistics_of_a_ledger [high_record; error_record; high_record])
    as (_ & Hfull & _).
  destruct Hfull as (st & Hst & Ht & Hh & _ & _ & Hhp & _ & Hlp).
  - discriminate.
  - repeat constructor; by eexists.
  - exists st. split_and!; [exact Hst | exact Ht | exact Hh | | ].
    + rewrite Hhp. vm_compute. reflexivity.
    + rewrite Hlp. vm_compute. reflexivity.
Defined.

(** C10: whenever [get_statistics] returns, high + medium + low is at most
    the total, and less than the total when some record has a risk level
    other than the strings HIGH, MEDIUM and LOW; it returns on every ledger
    whose records can be read.  With one ERROR record the total is 1 and the
    three percentages are 0.0 each. *)
Theorem level_counts_within_total (results : ledger) :
  (∀ st, get_statistics results = Ok st →
     ∃ total high medium low : Z,
       stat st "total" = Some total ∧ stat st "high" = Some high ∧
       stat st "medium" = Some medium ∧ stat st "low" = Some low ∧
       (high + medium + low ≤ total)%Z ∧
       ((∃ d v, d ∈ results ∧ risk_level_of d = Ok v ∧
                v ≠ PStr "HIGH" ∧ v ≠ PStr "MEDIUM" ∧ v ≠ PStr "LOW") →
        (high + medium + low < total)%Z)) ∧
  (Forall readable results → ∃ st, get_statistics results = Ok st) ∧
  (∃ st, get_statistics [error_record] = Ok st ∧
         stat st "total" = Some 1%Z ∧
         stat st "high" = Some 0%Z ∧ stat st "medium" = Some 0%Z ∧
         stat st "low" = Some 0%Z ∧
         st !! "high_percentage" = Some (PFloat 0) ∧
         st !! "medium_percentage" = Some (PFloat 0) ∧
         st !! "low_percentage" = Some (PFloat 0)).
Proof.
  split_and!.
  - intros st Hst. apply get_statistics_ok in Hst as (_ & Ht & Hh & Hm & Hl).
    do 4 eexists. split_and!; [done..| |].
    + pose proof (level_counts_le results). lia.
    + intros (d & v & Hd & Hv & H1 & H2 & H3).
      pose proof (level_counts_lt results d Hd (unlevelled_other d v Hv H1 H2 H3)).
      lia.
  - intros Hr. destruct results as [|d results]; [by eexists|].
    eexists. by apply get_statistics_readable.
  - eexists. split.
    + apply get_statistics_readable; [discriminate|].
      repeat constructor. by eexists.
    + split_and!; vm_compute; reflexivity.
Qed.

(** C10 on a ledger with an ERROR record among two HIGH ones. *)
Lemma level_counts_within_total_witness :
  ∃ total high medium low : Z,
    (high + medium + low < total)%Z ∧
    ∃ st, get_statistics [high_record; error_record; high_record] = Ok st ∧
          stat st "total" = Some total ∧ stat st "high" = Some high ∧
          stat st "medium" = Some medium ∧ stat st "low" = Some low.
Proof.
  destruct (level_counts_within_total [high_record; error_record; high_record])
    as (Hle & Hret & _).
  destruct Hret as [st Hst]; [repeat constructor; by eexists|].
  destruct (Hle st Hst) as (total & high & medium & low & Ht & Hh & Hm & Hl & _ & Hlt).
  exists total, high, medium, low. split.
  - apply Hlt. exists error_record, (PStr "ERROR").
    split_and!; [ | reflexivity | discriminate..].
    apply elem_of_cons. right. apply elem_of_cons. by left.
  - by exists st.
Defined.

End StatisticsFacts.

(* ===================================================================== *)
(** * The orchestrator: a case that is not in the case source *)
(* ===================================================================== *)

Module PipelineFacts.
Import StrFacts RiskClassificationPipeline.

(** No record of the case source has the identifier. *)
Definition absent (case_id : string) (cases : list (gmap string pyval)) : Prop :=
  ∀ case, case ∈ cases → case !! "case_id" ≠ Some (PStr case_id).

Lemma get_case_by_id_absent cases case_id :
  absent case_id cases → CaseFetcher.get_case_by_id cases case_id = None.
Proof.
  unfold absent. induction cases as [|case cases IH]; intros Ha; [done|].
  cbn [CaseFetcher.get_case_by_id].
  destruct (case !! "case_id") as [v|] eqn:Hv; cbn [from_option id].
  - destruct v as [| | | |s| |]; cbn [eq_str];
      try (apply IH; intros c Hc; apply Ha; by apply elem_of_cons; right).
    case_bool_decide as Hs.
    + subst. destruct (Ha case); [apply elem_of_cons; by left | done].
    + apply IH. intros c Hc. apply Ha. apply elem_of_cons. by right.
  - apply IH. intros c Hc. apply Ha. apply elem_of_cons. by right.
Qed.

Lemma get_case_by_id_found cases case_id case :
  CaseFetcher.get_case_by_id cases case_id = Some case →
  case ∈ cases ∧ case !! "case_id" = Some (PStr case_id).
Proof.
  induction cases as [|c cases IH]; [done|].
  cbn [CaseFetcher.get_case_by_id].
  destruct (eq_str (default PNone (c !! "case_id")) case_id) eqn:He.
  - intros [= <-]. split; [apply elem_of_cons; by left|].
    destruct (c !! "case_id") as [[| | | |s| |]|]; cbn in He; try done.
    by apply bool_decide_eq_true in He as ->.
  - intros Hf. destruct (IH Hf) as [Hin Hid]. split; [|done].
    apply elem_of_cons. by right.
Qed.

Section Orchestrator.
Context `{Builtins}.

(** C9: for an identifier that no record of the case source has,
    [process_case] returns success false with an error message that names the
    identifier, and nothing else: no case data, no rendered context, no
    classification, no decision record; the ledger is the one before the
    call.  [process_case] is a total function: it returns a result whatever
    happens. *)
Theorem unknown_case_is_reported
    (self : t) (now case_id : string) (save_result : bool) :
  absent case_id (fetcher self) →
  process_case self now case_id save_result =
    ({| success := false; case_id := case_id; case_data := None;
        processed_context := None; classification := None;
        decision_record := None;
        error := Some ("Case " +:+ case_id +:+ " not found in database") |},
     storage self) ∧
  occurs case_id ("Case " +:+ case_id +:+ " not found in database").
Proof.
  intros Ha. split.
  - unfold process_case. by rewrite (get_case_by_id_absent _ _ Ha).
  - apply occurs_app_r, occurs_refl_app.
Qed.

End Orchestrator.

(** A pipeline in demo mode over the sample case, with an empty ledger. *)
Definition sample_pipeline : t :=
  {| fetcher := [Samples.scenario_case]; classifier_of := Demo; storage := [] |}.

(** C9 on the identifier of the specification's scenario. *)
Lemma unknown_case_is_reported_witness :
  process_case (H := Samples.sample_builtins) sample_pipeline
    "2025-01-01T10:00:00" "UNKNOWN_ID" true
  = ({| success := false; case_id := "UNKNOWN_ID"; case_data := None;
        processed_context := None; classification := None;
        decision_record := None;
        error := Some "Case UNKNOWN_ID not found in database" |}, []).
Proof.
  refine (proj1 (unknown_case_is_reported (H := Samples.sample_builtins)
                   sample_pipeline "2025-01-01T10:00:00" "UNKNOWN_ID" true _)).
  intros case Hcase. apply elem_of_cons in Hcase as [->|Hcase]; [discriminate|].
  by apply elem_of_nil in Hcase.
Defined.

End PipelineFacts.

(* ===================================================================== *)
(** * The other categories of the preprocessor *)
(* ===================================================================== *)

Module PreprocessorFacts.
Import StrFacts CasePreprocessor.

(** A value the comparisons of the preprocessor accept. *)
Definition numeric (v : pyval) : Prop :=
  match v with
  | PInt _ | PBool _ | PFloat _ => True
  | _ => False
  end.

(** A case record whose fields have the types the preprocessor can handle;
    a field may be missing, the default then stands for it. *)
Definition well_typed (case : gmap string pyval) : Prop :=
  (∀ v, case !! "amount" = Some v →
        numeric v ∧ ∀ z, v = PInt z → (z < 2 ^ 53)%Z) ∧
  (∀ v, case !! "days_overdue" = Some v → numeric v) ∧
  (∀ v, case !! "past_attempts" = Some v → numeric v) ∧
  (∀ v, case !! "customer_type" = Some v → ∃ s, v = PStr s) ∧
  (∀ v, case !! "loan_type" = Some v → ∃ s, v = PStr s).

Section Categories.
Context `{Builtins}.

Lemma critically_overdue (d : Z) :
  (90 < d)%Z →
  _categorize_overdue (PInt d)
  = Ok ("Critically overdue (" +:+ str_int d +:+ " days - immediate action required)").
Proof.
  intros Hd. unfold _categorize_overdue, overdue_thresholds_recent,
    overdue_thresholds_moderate, overdue_thresholds_long. cbn [le_int bind str].
  destruct (Z.leb_spec d 15), (Z.leb_spec d 45), (Z.leb_spec d 90); try lia; reflexivity.
Qed.

Lemma recently_overdue (d : Z) :
  (d ≤ 15)%Z →
  _categorize_overdue (PInt d)
  = Ok ("Recently overdue (" +:+ str_int d +:+ " days - within grace period)").
Proof.
  intros Hd. unfold _categorize_overdue, overdue_thresholds_recent. cbn [le_int bind str].
  destruct (Z.leb_spec d 15); [reflexivity | lia].
Qed.

Lemma exhaustive_attempts (a : Z) :
  (5 < a)%Z →
  _categorize_attempts (PInt a)
  = Ok ("Exhaustive recovery attempts failed (" +:+ str_int a
        +:+ " attempts - customer unresponsive)").
Proof.
  intros Ha. unfold _categorize_attempts, attempts_thresholds_none,
    attempts_thresholds_few, attempts_thresholds_multiple. cbn [eq_int le_int bind str].
  destruct (Z.eqb_spec a 0), (Z.leb_spec a 2), (Z.leb_spec a 5); try lia; reflexivity.
Qed.

(** X1: The overdue bucket of a whole number of days: up to 15 recently, up to
    45 moderately, up to 90 long, above 90 critically overdue; the text shows
    the number of days.  A negative number of days is recently overdue. *)
Theorem overdue_buckets (d : Z) :
  ((d ≤ 15)%Z → _categorize_overdue (PInt d)
     = Ok ("Recently overdue (" +:+ str_int d +:+ " days - within grace period)")) ∧
  ((15 < d ≤ 45)%Z → _categorize_overdue (PInt d)
     = Ok ("Moderately overdue (" +:+ str_int d +:+ " days - needs attention)")) ∧
  ((45 < d ≤ 90)%Z → _categorize_overdue (PInt d)
     = Ok ("Long overdue (" +:+ str_int d +:+ " days - serious concern)")) ∧
  ((90 < d)%Z → _categorize_overdue (PInt d)
     = Ok ("Critically overdue (" +:+ str_int d +:+ " days - immediate action required)")).
Proof.
  unfold _categorize_overdue, overdue_thresholds_recent, overdue_thresholds_moderate,
    overdue_thresholds_long. cbn [le_int bind str].
  split_and!; intros Hd;
    destruct (Z.leb_spec d 15), (Z.leb_spec d 45), (Z.leb_spec d 90);
    try lia; reflexivity.
Qed.

(** X2: The attempts bucket of a whole number: none for 0, few up to 2,
    multiple failed up to 5, exhaustive above 5.  A negative number counts as
    few. *)
Theorem attempts_buckets (a : Z) :
  _categorize_attempts (PInt 0) = Ok "No recovery attempts made yet" ∧
  ((a ≤ 2)%Z → a ≠ 0%Z → _categorize_attempts (PInt a)
     = Ok ("Few recovery attempts (" +:+ str_int a +:+ " attempts)")) ∧
  ((2 < a ≤ 5)%Z → _categorize_attempts (PInt a)
     = Ok ("Multiple failed recovery attempts (" +:+ str_int a +:+ " attempts)")) ∧
  ((5 < a)%Z → _categorize_attempts (PInt a)
     = Ok ("Exhaustive recovery attempts failed (" +:+ str_int a
           +:+ " attempts - customer unresponsive)")).
Proof.
  unfold _categorize_attempts, attempts_thresholds_none, attempts_thresholds_few,
    attempts_thresholds_multiple. cbn [eq_int le_int bind str].
  split_and!; [reflexivity|..]; intros;
    destruct (Z.eqb_spec a 0), (Z.leb_spec a 2), (Z.leb_spec a 5);
    try lia; reflexivity.
Qed.

(** X3: The customer category: a string equal to business whatever the case of
    its letters is a business customer, every other string an individual;
    the match is on the whole string, so a trailing blank makes an
    individual.  A value that is no string raises AttributeError. *)
Theorem customer_type_category (s : string) (v : pyval) :
  (lower s = "business" → _categorize_customer_type (PStr s)
     = Ok "Business customer (higher stakes, formal recovery process needed)") ∧
  (lower s ≠ "business" → _categorize_customer_type (PStr s)
     = Ok "Individual customer (personal approach may work)") ∧
  _categorize_customer_type (PStr "BUSINESS")
    = Ok "Business customer (higher stakes, formal recovery process needed)" ∧
  _categorize_customer_type (PStr "Business ")
    = Ok "Individual customer (personal approach may work)" ∧
  ((∀ t, v ≠ PStr t) →
   ∃ e, _categorize_customer_type v = Raise e ∧ exn_cls e = AttributeError).
Proof.
  split_and!.
  - intros Hs. cbn [_categorize_customer_type]. by rewrite bool_decide_eq_true_2.
  - intros Hs. cbn [_categorize_customer_type]. by rewrite bool_decide_eq_false_2.
  - reflexivity.
  - reflexivity.
  - intros Hv. destruct v; try (by eexists); by destruct (Hv s0).
Qed.

(** X4: The loan category: the five known loan types have their fixed text;
    every other string is named in a generic text; the lookup is exact, so a
    known type written in another case is unknown.  A list or a dict raises
    TypeError. *)
Theorem loan_type_category (s : string) (v : pyval) :
  _categorize_loan_type (PStr "Credit Card")
    = Ok "Credit card debt (unsecured, typically smaller amounts)" ∧
  _categorize_loan_type (PStr "Personal Loan")
    = Ok "Personal loan (unsecured, medium priority)" ∧
  _categorize_loan_type (PStr "Home Loan")
    = Ok "Home loan (secured by property, high recovery priority)" ∧
  _categorize_loan_type (PStr "Vehicle Loan")
    = Ok "Vehicle loan (secured by vehicle, can be repossessed)" ∧
  _categorize_loan_type (PStr "Business Loan")
    = Ok "Business loan (complex recovery, may involve legal action)" ∧
  (s ∉ [ "Credit Card"; "Personal Loan"; "Home Loan"; "Vehicle Loan"; "Business Loan" ] →
   _categorize_loan_type (PStr s) = Ok (s +:+ " (standard recovery process)")) ∧
  _categorize_loan_type (PStr "home loan") = Ok "home loan (standard recovery process)" ∧
  ((∃ l, v = PList l) ∨ (∃ d, v = PDict d) →
   ∃ e, _categorize_loan_type v = Raise e ∧ exn_cls e = TypeError).
Proof.
  split_and!; try reflexivity.
  - intros Hs. cbn [_categorize_loan_type str].
    assert (loan_contexts !! s = None) as ->; [|done].
    unfold loan_contexts.
    repeat (rewrite lookup_insert_ne;
            [|intros <-; apply Hs; repeat constructor]).
    apply lookup_singleton_ne. intros <-. apply Hs. repeat constructor.
  - intros [[l ->]|[d ->]]; by eexists.
Qed.

(** The fixed template of the context, around the seven rendered values. *)
Definition template (case_id customer_name a l o t c : string) : string :=
  nl +:+ "CASE DETAILS FOR RISK ASSESSMENT:" +:+ nl
  +:+ rule +:+ nl
  +:+ "Case ID: " +:+ case_id +:+ nl
  +:+ "Customer: " +:+ customer_name +:+ nl
  +:+ nl
  +:+ "FINANCIAL CONTEXT:" +:+ nl
  +:+ "- Amount: " +:+ a +:+ nl
  +:+ "- Loan Type: " +:+ l +:+ nl
  +:+ nl
  +:+ "OVERDUE STATUS:" +:+ nl
  +:+ "- Duration: " +:+ o +:+ nl
  +:+ nl
  +:+ "RECOVERY HISTORY:" +:+ nl
  +:+ "- Past Attempts: " +:+ t +:+ nl
  +:+ nl
  +:+ "CUSTOMER PROFILE:" +:+ nl
  +:+ "- Type: " +:+ c +:+ nl
  +:+ rule +:+ nl.

(** The five categories of a case and the context rendered from them. *)
Definition categories (case : gmap string pyval) (a l o t c : string) : Prop :=
  _categorize_amount (default (PInt 0) (case !! "amount")) = Ok a ∧
  _categorize_loan_type (default (PStr "Unknown") (case !! "loan_type")) = Ok l ∧
  _categorize_overdue (default (PInt 0) (case !! "days_overdue")) = Ok o ∧
  _categorize_attempts (default (PInt 0) (case !! "past_attempts")) = Ok t ∧
  _categorize_customer_type (default (PStr "Individual") (case !! "customer_type")) = Ok c.

Lemma rendered_template (case : gmap string pyval) a l o t c :
  case ≠ ∅ → categories case a l o t c →
  RuleBasedFacts.rendered case
  = Ok (template (str (default PNone (case !! "case_id")))
                 (str (default PNone (case !! "customer_name"))) a l o t c).
Proof.
  intros Hne (Ha & Hl & Ho & Ht & Hc).
  apply RuleBasedFacts.rendered_eq; try done.
  apply bool_decide_eq_false. intros Hs. by apply map_size_empty_iff in Hs.
Qed.

(** A context is rendered only from five categories that were computed. *)
Lemma rendered_inv (case : gmap string pyval) ctx :
  case ≠ ∅ → RuleBasedFacts.rendered case = Ok ctx →
  ∃ a l o t c, categories case a l o t c ∧
    ctx = template (str (default PNone (case !! "case_id")))
                   (str (default PNone (case !! "customer_name"))) a l o t c.
Proof.
  intros Hne Hr.
  destruct (_categorize_amount (default (PInt 0) (case !! "amount"))) as [a|] eqn:Ha;
  [destruct (_categorize_overdue (default (PInt 0) (case !! "days_overdue")))
     as [o|] eqn:Ho;
   [destruct (_categorize_attempts (default (PInt 0) (case !! "past_attempts")))
      as [t|] eqn:Ht;
    [destruct (_categorize_customer_type
                 (default (PStr "Individual") (case !! "customer_type")))
       as [c|] eqn:Hc;
     [destruct (_categorize_loan_type (default (PStr "Unknown") (case !! "loan_type")))
        as [l|] eqn:Hl|]|]|]|].
  - exists a, l, o, t, c. split; [done|].
    rewrite (rendered_template case a l o t c) in Hr by done. by injection Hr.
  - unfold RuleBasedFacts.rendered, preprocess in Hr.
    rewrite bool_decide_eq_false_2 in Hr
      by (intros Hs; by apply map_size_empty_iff in Hs).
    by rewrite Ha, Ho, Ht, Hc, Hl in Hr.
  - unfold RuleBasedFacts.rendered, preprocess in Hr.
    rewrite bool_decide_eq_false_2 in Hr
      by (intros Hs; by apply map_size_empty_iff in Hs).
    by rewrite Ha, Ho, Ht, Hc in Hr.
  - unfold RuleBasedFacts.rendered, preprocess in Hr.
    rewrite bool_decide_eq_false_2 in Hr
      by (intros Hs; by apply map_size_empty_iff in Hs).
    by rewrite Ha, Ho, Ht in Hr.
  - unfold RuleBasedFacts.rendered, preprocess in Hr.
    rewrite bool_decide_eq_false_2 in Hr
      by (intros Hs; by apply map_size_empty_iff in Hs).
    by rewrite Ha, Ho in Hr.
  - unfold RuleBasedFacts.rendered, preprocess in Hr.
    rewrite bool_decide_eq_false_2 in Hr
      by (intros Hs; by apply map_size_empty_iff in Hs).
    by rewrite Ha in Hr.
Qed.

Lemma numeric_overdue v : numeric v → ∃ o, _categorize_overdue v = Ok o.
Proof.
  intros Hv. unfold _categorize_overdue.
  destruct v; try done; cbn [le_int bind];
    repeat (match goal with |- context [if ?b then _ else _] => destruct b end;
            try (by eexists); cbn [bind]).
Qed.

Lemma numeric_attempts v : numeric v → ∃ t, _categorize_attempts v = Ok t.
Proof.
  intros Hv. unfold _categorize_attempts.
  destruct v; try done; cbn [le_int bind];
    repeat (match goal with |- context [if ?b then _ else _] => destruct b end;
            try (by eexists); cbn [bind]).
Qed.

Lemma numeric_amount v :
  numeric v → (∀ z, v = PInt z → (z < 2 ^ 53)%Z) → ∃ a, _categorize_amount v = Ok a.
Proof.
  intros Hv Hz. unfold _categorize_amount.
  destruct v as [|b|z|f| | |]; try done; cbn [lt_int bind].
  - repeat (match goal with |- context [if ?b then _ else _] => destruct b end;
            try (by eexists); cbn [bind]).
  - unfold amount_thresholds_low, amount_thresholds_medium, amount_thresholds_high.
    destruct (Z.ltb_spec z 20000); [by eexists|]. cbn [bind].
    destruct (Z.ltb_spec z 100000); [by eexists|]. cbn [bind].
    destruct (Z.ltb_spec z 500000); [by eexists|]. cbn [bind].
    rewrite AmountFacts.format_comma_0f_int by (split; [lia | by apply Hz]).
    by eexists.
  - repeat (match goal with |- context [if ?b then _ else _] => destruct b end;
            try (by eexists); cbn [bind]).
Qed.

(** X5: A case that is absent or empty is not preprocessed and renders as the
    empty text, without an exception; the rule-based classifier answers
    MEDIUM on the empty text.  No other case renders as the empty text. *)
Theorem absent_case_renders_empty (case : gmap string pyval) :
  preprocess None = Ok None ∧
  preprocess (Some ∅) = Ok None ∧
  generate_prompt_context None = Ok "" ∧
  generate_prompt_context (Some ∅) = Ok "" ∧
  (RuleBasedFacts.rendered case = Ok "" ↔ case = ∅) ∧
  DemoGeminiClassifier.classify_risk "" = DemoGeminiClassifier.medium_result.
Proof.
  split_and!; try reflexivity. split.
  - intros Hr. destruct (decide (size case = 0)) as [Hs|Hs].
    + by apply map_size_empty_iff in Hs.
    + assert (case ≠ ∅) as Hne by (intros ->; by apply Hs).
      destruct (rendered_inv case "" Hne Hr) as (a & l & o & t & c & _ & Hctx).
      discriminate Hctx.
  - by intros ->.
Qed.

(** The five categories of a case whose fields have the expected types. *)
Lemma categories_well_typed (case : gmap string pyval) :
  well_typed case → ∃ a l o t c, categories case a l o t c.
Proof.
  intros (Wa & Wd & Wp & Wc & Wl).
  assert (∃ a, _categorize_amount (default (PInt 0) (case !! "amount")) = Ok a)
    as [a Ha].
  { destruct (case !! "amount") as [v|] eqn:E; [|by eexists].
    destruct (Wa v eq_refl). by apply numeric_amount. }
  assert (∃ o, _categorize_overdue (default (PInt 0) (case !! "days_overdue")) = Ok o)
    as [o Ho].
  { destruct (case !! "days_overdue") as [v|] eqn:E; [|by eexists].
    by apply numeric_overdue, Wd. }
  assert (∃ t, _categorize_attempts (default (PInt 0) (case !! "past_attempts")) = Ok t)
    as [t Ht].
  { destruct (case !! "past_attempts") as [v|] eqn:E; [|by eexists].
    by apply numeric_attempts, Wp. }
  assert (∃ c, _categorize_customer_type
                 (default (PStr "Individual") (case !! "customer_type")) = Ok c)
    as [c Hc].
  { destruct (case !! "customer_type") as [v|] eqn:E; [|by eexists].
    destruct (Wc v eq_refl) as [s ->]. eexists. apply RuleBasedFacts.customer_type_str. }
  assert (∃ l, _categorize_loan_type (default (PStr "Unknown") (case !! "loan_type")) = Ok l)
    as [l Hl].
  { destruct (case !! "loan_type") as [v|] eqn:E; [|by eexists].
    destruct (Wl v eq_refl) as [s ->]. by eexists. }
  by exists a, l, o, t, c.
Qed.

(** X6: Every case record that is not empty and whose fields have the expected
    types is rendered, as the fixed template around its identifier, its
    customer name and its five categories; a missing field is replaced by
    its default and a missing identifier or name appears as None. *)
Theorem well_typed_case_is_rendered (case : gmap string pyval) :
  case ≠ ∅ → well_typed case →
  ∃ a l o t c,
    categories case a l o t c ∧
    RuleBasedFacts.rendered case
    = Ok (template (str (default PNone (case !! "case_id")))
                   (str (default PNone (case !! "customer_name"))) a l o t c).
Proof.
  intros Hne Hw.
  destruct (categories_well_typed case Hw) as (a & l & o & t & c & Hcat).
  exists a, l, o, t, c. split; [exact Hcat|]. by apply rendered_template.
Qed.

End Categories.

(** The sample case is rendered. *)
Lemma well_typed_case_is_rendered_witness :
  ∃ ctx, RuleBasedFacts.rendered (H := Samples.sample_builtins) Samples.scenario_case
         = Ok ctx.
Proof.
  destruct (well_typed_case_is_rendered (H := Samples.sample_builtins)
              Samples.scenario_case) as (a & l & o & t & c & _ & Hr).
  - discriminate.
  - split_and!; intros v [= <-]; try (by eexists); try exact I.
    split; [exact I|]. intros z [= <-]. reflexivity.
  - by eexists.
Defined.

End PreprocessorFacts.

(* ===================================================================== *)
(** * The rule-based classifier on rendered cases *)
(* ===================================================================== *)

Module RuleBasedCases.
Import StrFacts CasePreprocessor DemoGeminiClassifier PreprocessorFacts.

(** Look for a phrase in a text written as a concatenation of pieces. *)
Ltac is_literal s :=
  lazymatch s with
  | EmptyString => idtac
  | String _ ?r => is_literal r
  end.

Ltac find_phrase :=
  lazymatch goal with
  | |- occurs _ (_ +:+ _) =>
      first [ apply occurs_app_l; find_phrase | apply occurs_app_r; find_phrase ]
  | |- occurs _ (lower ?s) =>
      is_literal s; apply str_in_spec; vm_compute; reflexivity
  end.

Ltac in_list := repeat (first [ apply list_elem_of_here | apply list_elem_of_further ]).

(** Two high-risk phrases in the text make the result HIGH. *)
Lemma two_high_phrases text p q :
  p ≠ q → p ∈ high_risk_indicators → q ∈ high_risk_indicators →
  occurs p (lower text) → occurs q (lower text) →
  classify_risk text = high_result.
Proof.
  intros Hne Hp Hq Op Oq. apply str_in_spec in Op, Oq.
  unfold classify_risk, score. unfold high_risk_indicators in Hp, Hq |- *.
  cbn [List.filter].
  repeat (apply elem_of_cons in Hp as [->|Hp]);
    try (by apply elem_of_nil in Hp);
    repeat (apply elem_of_cons in Hq as [->|Hq]);
    try (by apply elem_of_nil in Hq); try done;
    rewrite Op, Oq;
    repeat match goal with
           | |- context [if str_in ?a ?b then _ else _] => destruct (str_in a b)
           end; reflexivity.
Qed.

(** Two low-risk phrases in the text exclude MEDIUM. *)
Lemma two_low_phrases text p q :
  p ≠ q → p ∈ low_risk_indicators → q ∈ low_risk_indicators →
  occurs p (lower text) → occurs q (lower text) →
  classify_risk text = high_result ∨ classify_risk text = low_result.
Proof.
  intros Hne Hp Hq Op Oq. apply str_in_spec in Op, Oq.
  unfold classify_risk.
  destruct (2 <=? score high_risk_indicators (lower text)); [by left|]. right.
  unfold score. unfold low_risk_indicators in Hp, Hq |- *.
  cbn [List.filter].
  repeat (apply elem_of_cons in Hp as [->|Hp]);
    try (by apply elem_of_nil in Hp);
    repeat (apply elem_of_cons in Hq as [->|Hq]);
    try (by apply elem_of_nil in Hq); try done;
    rewrite Op, Oq;
    repeat match goal with
           | |- context [if str_in ?a ?b then _ else _] => destruct (str_in a b)
           end; reflexivity.
Qed.

Lemma ascii_lower_upper c : ascii_lower (ascii_upper c) = ascii_lower c.
Proof. by destruct c as [[] [] [] [] [] [] [] []]. Qed.

Lemma ascii_lower_lower c : ascii_lower (ascii_lower c) = ascii_lower c.
Proof. by destruct c as [[] [] [] [] [] [] [] []]. Qed.

Lemma lower_upper s : lower (upper s) = lower s.
Proof. induction s as [|c s IH]; cbn; [done|]. by rewrite ascii_lower_upper, IH. Qed.

Lemma lower_lower s : lower (lower s) = lower s.
Proof. induction s as [|c s IH]; cbn; [done|]. by rewrite ascii_lower_lower, IH. Qed.

(** X7: The classification does not depend on the case of the letters of the
    context: two contexts that differ in case only get the same result. *)
Theorem classification_ignores_letter_case (ctx ctx' : string) :
  (lower ctx = lower ctx' → classify_risk ctx = classify_risk ctx') ∧
  classify_risk (upper ctx) = classify_risk ctx ∧
  classify_risk (lower ctx) = classify_risk ctx.
Proof.
  unfold classify_risk. split_and!.
  - by intros ->.
  - by rewrite lower_upper.
  - by rewrite lower_lower.
Qed.

Section Cases.
Context `{Builtins}.

(** X8: A case more than 90 days overdue is HIGH whatever its other fields: the
    overdue text alone holds two high-risk phrases.  So is a case of 500000
    or more with more than 5 past attempts. *)
Theorem long_overdue_case_is_high (case : gmap string pyval) (ctx : string) :
  RuleBasedFacts.rendered case = Ok ctx →
  ((∃ d, case !! "days_overdue" = Some (PInt d) ∧ (90 < d)%Z) →
   classify_risk ctx = high_result) ∧
  ((∃ z a, case !! "amount" = Some (PInt z) ∧ (500000 ≤ z)%Z ∧
           case !! "past_attempts" = Some (PInt a) ∧ (5 < a)%Z) →
   classify_risk ctx = high_result).
Proof.
  intros Hr. split.
  - intros (d & Hd & Hgt).
    assert (case ≠ ∅) as Hne by (intros ->; by rewrite lookup_empty in Hd).
    destruct (rendered_inv case ctx Hne Hr) as (a & l & o & t & c & Hcat & ->).
    destruct Hcat as (_ & _ & Ho & _). rewrite Hd in Ho. cbn [from_option id] in Ho.
    rewrite critically_overdue in Ho by done. injection Ho as <-.
    apply (two_high_phrases _ "critically overdue" "immediate action required");
      [done | in_list | in_list | |];
      unfold template; rewrite !lower_app; find_phrase.
  - intros (z & a' & Hz & Hge & Ha' & Hgt).
    assert (case ≠ ∅) as Hne by (intros ->; by rewrite lookup_empty in Hz).
    destruct (rendered_inv case ctx Hne Hr) as (a & l & o & t & c & Hcat & ->).
    destruct Hcat as (Ha & _ & _ & Ht & _).
    rewrite Hz in Ha. rewrite Ha' in Ht. cbn [from_option id] in Ha, Ht.
    rewrite exhaustive_attempts in Ht by done. injection Ht as <-.
    destruct (AmountFacts.categorize_amount_cases (PInt z)) as (_ & _ & _ & Hvh).
    rewrite Hvh in Ha by (apply AmountFacts.not_below_int; lia).
    destruct (format_comma_0f (PInt z)) as [shown|]; [|discriminate].
    cbn [bind] in Ha. injection Ha as <-.
    apply (two_high_phrases _ "exhaustive recovery attempts" "very high amount");
      [done | in_list | in_list | |];
      unfold template, very_high_amount_text; rewrite !lower_app; find_phrase.
Qed.

(** X9: A case at most 15 days overdue is never MEDIUM: the overdue text alone
    holds two low-risk phrases, so the result is LOW unless two high-risk
    phrases make it HIGH. *)
Theorem recent_case_is_not_medium (case : gmap string pyval) (ctx : string) (d : Z) :
  RuleBasedFacts.rendered case = Ok ctx →
  case !! "days_overdue" = Some (PInt d) → (d ≤ 15)%Z →
  classify_risk ctx = high_result ∨ classify_risk ctx = low_result.
Proof.
  intros Hr Hd Hle.
  assert (case ≠ ∅) as Hne by (intros ->; by rewrite lookup_empty in Hd).
  destruct (rendered_inv case ctx Hne Hr) as (a & l & o & t & c & Hcat & ->).
  destruct Hcat as (_ & _ & Ho & _). rewrite Hd in Ho. cbn [from_option id] in Ho.
  rewrite recently_overdue in Ho by done. injection Ho as <-.
  apply (two_low_phrases _ "recently overdue" "within grace period");
    [done | in_list | in_list | |];
    unfold template; rewrite !lower_app; find_phrase.
Qed.

(** X10: A case record that has none of the seven fields the preprocessor reads
    is rendered with the defaults (amount 0, 0 days, 0 attempts, an
    individual, an unknown loan) and classified LOW. *)
Theorem case_without_fields_is_low (case : gmap string pyval) :
  case ≠ ∅ →
  (∀ k, k ∈ [ "case_id"; "customer_name"; "amount"; "days_overdue";
              "past_attempts"; "customer_type"; "loan_type" ] → case !! k = None) →
  ∃ ctx, RuleBasedFacts.rendered case = Ok ctx ∧
         ctx = template "None" "None" low_amount_text
                 "Unknown (standard recovery process)"
                 "Recently overdue (0 days - within grace period)"
                 "No recovery attempts made yet"
                 "Individual customer (personal approach may work)" ∧
         classify_risk ctx = low_result.
Proof.
  intros Hne Hk. eexists. split_and!; [|reflexivity|vm_compute; reflexivity].
  rewrite (rendered_template case low_amount_text
             "Unknown (standard recovery process)"
             "Recently overdue (0 days - within grace period)"
             "No recovery attempts made yet"
             "Individual customer (personal approach may work)" Hne).
  - by rewrite !Hk by (repeat constructor).
  - unfold categories. rewrite !Hk by (repeat constructor). by split_and!.
Qed.

End Cases.

(** The classification of the sample case, which is 150 days overdue. *)
Lemma long_overdue_case_is_high_witness :
  ∃ ctx, RuleBasedFacts.rendered (H := Samples.sample_builtins) Samples.scenario_case
         = Ok ctx ∧ classify_risk ctx = high_result.
Proof.
  eexists. split; [vm_compute; reflexivity|].
  refine (proj1 (long_overdue_case_is_high (H := Samples.sample_builtins)
                   Samples.scenario_case _ _) _).
  - vm_compute. reflexivity.
  - exists 150%Z. split; [reflexivity | lia].
Defined.

(** A case five days overdue. *)
Definition recent_case : gmap string pyval :=
  {[ "case_id" := PStr "CASE004";
     "customer_name" := PStr "R. Kumar";
     "amount" := PInt 15000;
     "days_overdue" := PInt 5;
     "past_attempts" := PInt 0;
     "customer_type" := PStr "Individual";
     "loan_type" := PStr "Credit Card" ]}.

Lemma recent_case_is_not_medium_witness :
  ∃ ctx, RuleBasedFacts.rendered (H := Samples.sample_builtins) recent_case = Ok ctx ∧
         (classify_risk ctx = high_result ∨ classify_risk ctx = low_result).
Proof.
  eexists. split; [vm_compute; reflexivity|].
  eapply (recent_case_is_not_medium (H := Samples.sample_builtins) recent_case _ 5);
    [vm_compute; reflexivity | reflexivity | lia].
Defined.

(** A record with a region only. *)
Lemma case_without_fields_is_low_witness :
  ∃ ctx, RuleBasedFacts.rendered (H := Samples.sample_builtins)
           {[ "region" := PStr "North" ]} = Ok ctx ∧
         classify_risk ctx = low_result.
Proof.
  destruct (case_without_fields_is_low (H := Samples.sample_builtins)
              {[ "region" := PStr "North" ]}) as (ctx & Hr & _ & Hc).
  - discriminate.
  - intros k Hk. repeat (apply elem_of_cons in Hk as [->|Hk]; [reflexivity|]).
    by apply elem_of_nil in Hk.
  - exists ctx. split; [exact Hr | exact Hc].
Defined.

End RuleBasedCases.

(* ===================================================================== *)
(** * The cleaning of the response text *)
(* ===================================================================== *)

Module CleaningFacts.
Import StrFacts GeminiRiskClassifier.
































End CleaningFacts.

(* ===================================================================== *)
(** * The completion of a decoded response *)
(* ===================================================================== *)

Module CompletionFacts.
Import StrFacts GeminiRiskClassifier GeminiFacts.

Lemma filled_present k v x (d : gmap string pyval) : d !! k = Some x → filled k v d = d.
Proof. intros Hx. unfold filled. by rewrite Hx. Qed.

(** X13: What the completion has produced it leaves as it is: a second pass adds
    nothing and changes nothing. *)
Theorem completion_is_idempotent (v r : pyval) :
  complete v = Ok r → complete r = Ok r.
Proof.
  intros Hc. pose proof Hc as Hc'.
  destruct v as [| | | | | |d];
    try (apply complete_not_dict in Hc as [-> _]; [exact Hc' | by intros [? ?]]).
  apply complete_dict_ok in Hc as (d' & -> & C).
  destruct C as (_ & _ & L1 & L2 & L3 & L4 & (p & Hp & _) & (q & Hq & _)).
  rewrite complete_dict. unfold with_defaults.
  rewrite (filled_present "risk_level" _ _ d' L1).
  rewrite (filled_present "reason" _ _ d' L2).
  rewrite (filled_present "confidence" _ _ d' L3).
  rewrite (filled_present "recommended_action" _ _ d' L4).
  unfold with_probability. rewrite Hp. cbn [bind].
  unfold with_percentage. by rewrite Hq.
Qed.



Section NonObject.
Context `{Builtins}.


End NonObject.


Lemma completion_is_idempotent_witness :
  ∃ r, complete (PDict {[ "risk_level" := PStr "low" ]}) = Ok r ∧ complete r = Ok r.
Proof.
  eexists. split; [vm_compute; reflexivity|].
  apply (completion_is_idempotent (PDict {[ "risk_level" := PStr "low" ]})).
  vm_compute. reflexivity.
Defined.


End CompletionFacts.

(* ===================================================================== *)
(** * The decision records and the queries on the ledger *)
(* ===================================================================== *)

Module StorageFacts.
Import StrFacts ResultStorage GeminiFacts LedgerFacts StatisticsFacts.

Definition record_fields : list string :=
  [ "decision_id"; "case_id"; "customer_name"; "timestamp"; "input_data";
    "ai_decision"; "status" ].

Definition input_fields : list string :=
  [ "amount"; "days_overdue"; "past_attempts"; "customer_type"; "loan_type" ].

(** The record [store_decision] builds from a case and a classification
    that are dicts, for the [n]-th decision. *)
Definition snapshot (now : string) (n : nat) (case_id : string) (customer_name : pyval)
    (raw cls : gmap string pyval) : gmap string pyval :=
  {[ "decision_id" := PStr (decision_id n);
     "case_id" := PStr case_id;
     "customer_name" := customer_name;
     "timestamp" := PStr now;
     "input_data" := PDict
       {[ "amount" := field raw "amount";
          "days_overdue" := field raw "days_overdue";
          "past_attempts" := field raw "past_attempts";
          "customer_type" := field raw "customer_type";
          "loan_type" := field raw "loan_type" ]};
     "ai_decision" := PDict
       {[ "risk_level" := field cls "risk_level";
          "confidence" := field cls "confidence";
          "reason" := field cls "reason";
          "recommended_action" := field cls "recommended_action" ]};
     "status" := PStr "pending_review" ]}.

Lemma store_decision_dicts now results case_id customer_name (raw cls : gmap string pyval) :
  store_decision now results case_id customer_name (PDict raw) (PDict cls)
  = Ok (snapshot now (length results + 1) case_id customer_name raw cls,
        results ++ [snapshot now (length results + 1) case_id customer_name raw cls]).
Proof. reflexivity. Qed.

(** Only two dicts are stored. *)
Lemma store_decision_ok now results case_id customer_name raw cls record results' :
  store_decision now results case_id customer_name raw cls = Ok (record, results') →
  ∃ r c, raw = PDict r ∧ cls = PDict c ∧
         record = snapshot now (length results + 1) case_id customer_name r c ∧
         results' = results ++ [record].
Proof.
  intros Hs.
  destruct raw as [| | | | | |r]; try discriminate Hs.
  destruct cls as [| | | | | |c]; try discriminate Hs.
  rewrite store_decision_dicts in Hs. injection Hs as <- <-.
  by exists r, c.
Qed.

(** An entry of a map written out entry by entry: the key is one of those
    written, or the map has nothing under it. *)
Ltac lookup_literal k :=
  repeat match goal with
         | |- context [ <[?k' := _]> _ !! k ] =>
             destruct (decide (k = k')) as [->|?];
             [rewrite lookup_insert_eq | rewrite lookup_insert_ne by done]
         | |- context [ {[ ?k' := _ ]} !! k ] =>
             destruct (decide (k = k')) as [->|?];
             [rewrite lookup_singleton_eq | rewrite lookup_singleton_ne by done]
         end.

Ltac absurd_member H :=
  exfalso; apply H; repeat (first [ apply list_elem_of_here | apply list_elem_of_further ]).

Ltac absurd_literal H :=
  repeat (apply elem_of_cons in H as [H|H]; [congruence|]); by apply elem_of_nil in H.

Lemma snapshot_case_id now n case_id customer_name raw cls :
  snapshot now n case_id customer_name raw cls !! "case_id" = Some (PStr case_id).
Proof. unfold snapshot. by rewrite lookup_insert_ne, lookup_insert_eq. Qed.

Lemma snapshot_ai_decision now n case_id customer_name raw cls :
  snapshot now n case_id customer_name raw cls !! "ai_decision"
  = Some (PDict {[ "risk_level" := field cls "risk_level";
                   "confidence" := field cls "confidence";
                   "reason" := field cls "reason";
                   "recommended_action" := field cls "recommended_action" ]}).
Proof. unfold snapshot. by rewrite !lookup_insert_ne, lookup_insert_eq by done. Qed.

(** X15: The stored record is a snapshot: it holds seven entries; of the case it
    keeps the five input fields and nothing else, a missing one as None; of
    the classification it keeps the four core fields and nothing else, so
    the recovery forecast is not stored. *)
Theorem stored_record_is_a_snapshot
    (now : string) (results : ledger) (case_id : string) (customer_name : pyval)
    (raw cls : gmap string pyval) (record : gmap string pyval) (results' : ledger) :
  store_decision now results case_id customer_name (PDict raw) (PDict cls)
    = Ok (record, results') →
  (∀ k, is_Some (record !! k) ↔ k ∈ record_fields) ∧
  record !! "case_id" = Some (PStr case_id) ∧
  record !! "customer_name" = Some customer_name ∧
  record !! "timestamp" = Some (PStr now) ∧
  record !! "status" = Some (PStr "pending_review") ∧
  ∃ input ai,
    record !! "input_data" = Some (PDict input) ∧
    record !! "ai_decision" = Some (PDict ai) ∧
    (∀ k, k ∈ input_fields → input !! k = Some (field raw k)) ∧
    (∀ k, k ∉ input_fields → input !! k = None) ∧
    (∀ k, k ∈ core_fields → ai !! k = Some (field cls k)) ∧
    (∀ k, k ∉ core_fields → ai !! k = None) ∧
    ai !! "recovery_probability" = None ∧
    ai !! "recovery_percentage" = None.
Proof.
  rewrite store_decision_dicts. intros [= <- _]. unfold snapshot.
  split_and!.
  - intros k. unfold record_fields. split.
    + lookup_literal k; intros Hk;
        first [ by apply is_Some_None in Hk
              | repeat (first [ apply list_elem_of_here | apply list_elem_of_further ]) ].
    + intros Hk. lookup_literal k; try (by eexists). absurd_literal Hk.
  - by rewrite lookup_insert_ne, lookup_insert_eq.
  - by rewrite !lookup_insert_ne, lookup_insert_eq by done.
  - by rewrite !lookup_insert_ne, lookup_insert_eq by done.
  - by rewrite !lookup_insert_ne, lookup_singleton_eq by done.
  - eexists _, _. split_and!.
    + by rewrite !lookup_insert_ne, lookup_insert_eq by done.
    + by rewrite !lookup_insert_ne, lookup_insert_eq by done.
    + intros k Hk. unfold input_fields in Hk. lookup_literal k; try done.
      absurd_literal Hk.
    + intros k Hk. unfold input_fields in Hk. lookup_literal k; try done;
        absurd_member Hk.
    + intros k Hk. unfold core_fields in Hk. lookup_literal k; try done.
      absurd_literal Hk.
    + intros k Hk. unfold core_fields in Hk. lookup_literal k; try done;
        absurd_member Hk.
    + done.
    + done.
Qed.


(** ** The decisions of a case *)

Lemma eq_str_field (r : gmap string pyval) k s :
  eq_str (field r k) s = true ↔ r !! k = Some (PStr s).
Proof.
  unfold field. destruct (r !! k) as [v|]; cbn; [|split; discriminate].
  destruct v; cbn; try (split; discriminate).
  rewrite bool_decide_eq_true. split; congruence.
Qed.

Lemma eq_str_field_false (r : gmap string pyval) k s :
  eq_str (field r k) s = false ↔ r !! k ≠ Some (PStr s).
Proof.
  rewrite <- eq_str_field. by destruct (eq_str (field r k) s).
Qed.

(** The last element a filter keeps is the last one that passes it. *)
Lemma last_filter_spec {A} (f : A → bool) (l : list A) (r : A) :
  last (List.filter f l) = Some r ↔
  ∃ i, l !! i = Some r ∧ f r = true ∧
       ∀ j r', i < j → l !! j = Some r' → f r' = false.
Proof.
  induction l as [|x l IH] using rev_ind.
  - cbn. split; [done|]. intros (i & Hi & _). by rewrite lookup_nil in Hi.
  - rewrite List.filter_app. cbn [List.filter]. destruct (f x) eqn:Fx.
    + rewrite last_snoc. split.
      * intros [= <-]. exists (length l). split_and!; [by apply list_lookup_middle|done|].
        intros j r' Hj Hr'. apply lookup_lt_Some in Hr'.
        rewrite length_app in Hr'. cbn in Hr'. lia.
      * intros (i & Hi & Fr & Hlater).
        apply lookup_snoc_Some in Hi as [[Hi _]|[_ ->]]; [|done].
        rewrite (Hlater (length l) x Hi) in Fx; [done|].
        by apply list_lookup_middle.
    + rewrite app_nil_r, IH. split.
      * intros (i & Hi & Fr & Hlater). exists i. split_and!; [|done|].
        { apply lookup_snoc_Some. left. split; [|done]. by apply lookup_lt_Some in Hi. }
        intros j r' Hj Hr'.
        apply lookup_snoc_Some in Hr' as [[_ Hr']|[_ <-]]; [|done]. by eapply Hlater.
      * intros (i & Hi & Fr & Hlater).
        apply lookup_snoc_Some in Hi as [[Hlt Hi]|[_ ->]]; [|congruence].
        exists i. split_and!; [done..|].
        intros j r' Hj Hr'. apply (Hlater j r' Hj).
        apply lookup_snoc_Some. left. split; [|done]. by apply lookup_lt_Some in Hr'.
Qed.

(** X17: The decisions of a case are the records of the ledger that carry its
    identifier; the latest one is the last of them by position in the
    ledger, and there is none when no record carries the identifier. *)
Theorem latest_decision_is_the_last_of_the_case (results : ledger) (case_id : string) :
  (∀ r, r ∈ get_decision_by_case results case_id
        ↔ r ∈ results ∧ r !! "case_id" = Some (PStr case_id)) ∧
  (∀ r, get_latest_decision results case_id = Some r ↔
        ∃ i, results !! i = Some r ∧ r !! "case_id" = Some (PStr case_id) ∧
             ∀ j r', i < j → results !! j = Some r' →
                     r' !! "case_id" ≠ Some (PStr case_id)) ∧
  (get_latest_decision results case_id = None ↔
   ∀ r, r ∈ results → r !! "case_id" ≠ Some (PStr case_id)).
Proof.
  assert (∀ r, r ∈ get_decision_by_case results case_id
               ↔ r ∈ results ∧ r !! "case_id" = Some (PStr case_id)) as Hmem.
  { intros r. unfold get_decision_by_case.
    by rewrite !list_elem_of_In, List.filter_In, eq_str_field. }
  split_and!; [done| |].
  - intros r. unfold get_latest_decision, get_decision_by_case.
    rewrite last_filter_spec. split.
    + intros (i & Hi & Fr & Hlater). exists i. split_and!; [done|by apply eq_str_field|].
      intros j r' Hj Hr'. by apply eq_str_field_false, (Hlater j).
    + intros (i & Hi & Fr & Hlater). exists i. split_and!; [done|by apply eq_str_field|].
      intros j r' Hj Hr'. by apply eq_str_field_false, (Hlater j).
  - unfold get_latest_decision. rewrite last_None. split.
    + intros Hnil r Hr Hc.
      assert (r ∈ get_decision_by_case results case_id) as Hin by by apply Hmem.
      rewrite Hnil in Hin. by apply elem_of_nil in Hin.
    + intros Hnone.
      destruct (get_decision_by_case results case_id) as [|r l] eqn:E; [done|].
      destruct (proj1 (Hmem r)) as [Hin Hc]; [apply list_elem_of_here|].
      by destruct (Hnone r Hin).
Qed.

(** X18: After a decision is stored it is the latest decision of its case and
    the last of the case's decisions; the decisions of the other cases are
    as before. *)
Theorem stored_decision_is_the_latest
    (now : string) (results : ledger) (case_id : string)
    (customer_name raw cls : pyval) (record : gmap string pyval) (results' : ledger) :
  store_decision now results case_id customer_name raw cls = Ok (record, results') →
  get_all_decisions results' = get_all_decisions results ++ [record] ∧
  get_decision_by_case results' case_id
    = get_decision_by_case results case_id ++ [record] ∧
  get_latest_decision results' case_id = Some record ∧
  (∀ other, other ≠ case_id →
     get_decision_by_case results' other = get_decision_by_case results other ∧
     get_latest_decision results' other = get_latest_decision results other).
Proof.
  intros Hs. apply store_decision_ok in Hs as (r & c & -> & -> & -> & ->).
  set (record := snapshot _ _ _ _ _ _).
  assert (field record "case_id" = PStr case_id) as Hc.
  { unfold field, record. by rewrite snapshot_case_id. }
  assert (get_decision_by_case (results ++ [record]) case_id
          = get_decision_by_case results case_id ++ [record]) as Hby.
  { unfold get_decision_by_case. rewrite List.filter_app. cbn [List.filter].
    rewrite Hc. cbn [eq_str]. by rewrite bool_decide_eq_true_2. }
  split_and!; [done|done| |].
  - unfold get_latest_decision. by rewrite Hby, last_snoc.
  - intros other Hne.
    assert (get_decision_by_case (results ++ [record]) other
            = get_decision_by_case results other) as Hother.
    { unfold get_decision_by_case. rewrite List.filter_app. cbn [List.filter].
      rewrite Hc. cbn [eq_str]. rewrite bool_decide_eq_false_2 by done.
      apply app_nil_r. }
    split; [done|]. unfold get_latest_decision. by rewrite Hother.
Qed.

(** ** Storing and the statistics *)

Lemma has_level_snapshot level now n case_id customer_name raw cls :
  has_level level (snapshot now n case_id customer_name raw cls)
  = eq_str (field cls "risk_level") level.
Proof.
  unfold has_level, risk_level_of. rewrite snapshot_ai_decision.
  cbn [from_option id get]. by rewrite lookup_insert_eq.
Qed.

Lemma level_count_snoc level results record :
  level_count level (results ++ [record])
  = level_count level results + (if has_level level record then 1 else 0).
Proof.
  unfold level_count. rewrite List.filter_app, length_app. cbn [List.filter].
  by destruct (has_level level record).
Qed.

(** How much a classification adds to the count of a level: one when its
    risk level is the string [level]. *)
Definition counted (level : string) (cls : gmap string pyval) : Z :=
  if eq_str (field cls "risk_level") level then 1 else 0.

(** X19: Storing a decision in a ledger whose records can be read (as those of
    every ledger built by [store_decision] and [clear_all] can) adds one to
    the total of the statistics and one to the count of the classification's
    level, if that is HIGH, MEDIUM or LOW; the other counts stay. *)
Theorem storing_updates_the_statistics
    (now : string) (results : ledger) (case_id : string) (customer_name : pyval)
    (raw cls : gmap string pyval) (record : gmap string pyval) (results' : ledger) :
  store_decision now results case_id customer_name (PDict raw) (PDict cls)
    = Ok (record, results') →
  Forall readable results →
  ∃ st, get_statistics results' = Ok st ∧
        stat st "total" = Some (Z.of_nat (length results) + 1)%Z ∧
        stat st "high"
          = Some (Z.of_nat (level_count "HIGH" results) + counted "HIGH" cls)%Z ∧
        stat st "medium"
          = Some (Z.of_nat (level_count "MEDIUM" results) + counted "MEDIUM" cls)%Z ∧
        stat st "low"
          = Some (Z.of_nat (level_count "LOW" results) + counted "LOW" cls)%Z.
Proof.
  intros Hs Hread. pose proof (stored_readable _ _ _ _ _ _ _ _ Hs) as Hrec.
  rewrite store_decision_dicts in Hs. injection Hs as <- <-.
  set (record := snapshot _ _ _ _ _ _) in *.
  assert (Forall readable (results ++ [record])) as Hall.
  { apply Forall_app. split; [done|]. by apply Forall_cons. }
  assert (results ++ [record] ≠ []) as Hne by by destruct results.
  pose proof (get_statistics_readable _ Hne Hall) as Hst.
  eexists. split; [exact Hst|].
  destruct (get_statistics_ok _ _ Hst) as (_ & -> & -> & -> & ->).
  rewrite !level_count_snoc, length_app. unfold record.
  rewrite !has_level_snapshot. unfold counted. cbn [length].
  split_and!; f_equal;
    repeat match goal with
           | |- context [eq_str ?v ?l] => destruct (eq_str v l)
           end; lia.
Qed.

(** ** Records that cannot be read *)





(** A stored decision of a classification with the six fields. *)
Lemma stored_record_is_a_snapshot_witness :
  ∃ record ai,
    store_decision "2025-01-01T10:00:00" [] "CASE003" (PStr "ABC Enterprises")
      (PDict Samples.scenario_case) (PDict DemoGeminiClassifier.high_result)
      = Ok (record, [record]) ∧
    record !! "ai_decision" = Some (PDict ai) ∧
    ai !! "risk_level" = Some (PStr "HIGH") ∧
    ai !! "recovery_percentage" = None.
Proof.
  destruct (stored_record_is_a_snapshot "2025-01-01T10:00:00" [] "CASE003"
              (PStr "ABC Enterprises") Samples.scenario_case
              DemoGeminiClassifier.high_result _ _ eq_refl)
    as (_ & _ & _ & _ & _ & input & ai & _ & Hai & _ & _ & Hcore & _ & _ & Hpct).
  eexists _, ai. split_and!; [reflexivity | exact Hai | | exact Hpct].
  rewrite (Hcore "risk_level") by apply list_elem_of_here.
  vm_compute. reflexivity.
Defined.

Lemma stored_decision_is_the_latest_witness :
  ∃ record,
    store_decision "2025-01-01T10:00:00" [high_record] "CASE003" (PStr "ABC Enterprises")
      (PDict Samples.scenario_case) (PDict DemoGeminiClassifier.high_result)
      = Ok (record, [high_record; record]) ∧
    get_latest_decision [high_record; record] "CASE003" = Some record.
Proof.
  eexists. split; [reflexivity|].
  apply (stored_decision_is_the_latest "2025-01-01T10:00:00" [high_record] "CASE003"
           (PStr "ABC Enterprises") (PDict Samples.scenario_case)
           (PDict DemoGeminiClassifier.high_result) _ _ eq_refl).
Defined.

Lemma storing_updates_the_statistics_witness :
  ∃ record st,
    store_decision "2025-01-01T10:00:00" [high_record] "CASE003" (PStr "ABC Enterprises")
      (PDict Samples.scenario_case) (PDict DemoGeminiClassifier.high_result)
      = Ok (record, [high_record; record]) ∧
    get_statistics [high_record; record] = Ok st ∧
    stat st "total" = Some 2%Z ∧ stat st "high" = Some 2%Z.
Proof.
  destruct (storing_updates_the_statistics "2025-01-01T10:00:00" [high_record] "CASE003"
              (PStr "ABC Enterprises") Samples.scenario_case
              DemoGeminiClassifier.high_result _ _ eq_refl)
    as (st & Hst & Htotal & Hhigh & _).
  - repeat constructor. by eexists.
  - eexists _, st. split_and!; [reflexivity | exact Hst | exact Htotal | exact Hhigh].
Defined.


End StorageFacts.

(* ===================================================================== *)
(** * case_fetcher.py: the listing and the summary of the cases *)
(* ===================================================================== *)

Module CaseFetcherViews.
Import CaseFetcher.

Definition get_all_cases (cases : list (gmap string pyval)) : list (gmap string pyval) :=
  cases.

(** [[case.get("case_id") for case in self.cases]] *)
Definition get_case_ids (cases : list (gmap string pyval)) : list pyval :=
  List.map (fun case => default PNone (case !! "case_id")) cases.

Section Summary.
Context `{Builtins}.

(** [format(x, ',')] for a float [x]: the shortest digits that read back as
    [x], grouped; it is taken as given. *)
Variable format_float_comma : float → string.

(** [format(v, ',')] *)
Definition format_comma (v : pyval) : result string :=
  match v with
  | PInt z => Ok (signed_grouped (z <? 0)%Z (Z.abs z))
  | PBool b => Ok (str_int (as_int b))
  | PFloat f => Ok (format_float_comma f)
  | PStr _ => Raise (mk_exn ValueError "Cannot specify ',' with 's'.")
  | _ => Raise (mk_exn TypeError
           ("unsupported format string passed to " +:+ type_name v +:+ ".__format__"))
  end.

Definition get_case_summary (cases : list (gmap string pyval)) (case_id : string)
  : result string :=
  match get_case_by_id cases case_id with
  | Some case =>
      if bool_decide (size case = 0%nat) then Ok "Case not found"
      else
        let* id := getitem (PDict case) "case_id" in
        let* name := getitem (PDict case) "customer_name" in
        let* amount := getitem (PDict case) "amount" in
        let* shown := format_comma amount in
        Ok (str id +:+ " - " +:+ str name +:+ " (₹" +:+ shown +:+ ")")
  | None => Ok "Case not found"
  end.

End Summary.
End CaseFetcherViews.

Module FetcherFacts.
Import StrFacts CaseFetcher CaseFetcherViews PipelineFacts.

Lemma eq_str_id (case : gmap string pyval) case_id :
  eq_str (default PNone (case !! "case_id")) case_id = true
  ↔ case !! "case_id" = Some (PStr case_id).
Proof. apply (StorageFacts.eq_str_field case "case_id" case_id). Qed.

Lemma eq_str_id_false (case : gmap string pyval) case_id :
  eq_str (default PNone (case !! "case_id")) case_id = false
  ↔ case !! "case_id" ≠ Some (PStr case_id).
Proof. apply (StorageFacts.eq_str_field_false case "case_id" case_id). Qed.

(** [get_case_by_id] returns the first record that carries the identifier. *)
Lemma get_case_by_id_first cases case_id case :
  get_case_by_id cases case_id = Some case ↔
  ∃ i, cases !! i = Some case ∧ case !! "case_id" = Some (PStr case_id) ∧
       ∀ j c, j < i → cases !! j = Some c → c !! "case_id" ≠ Some (PStr case_id).
Proof.
  induction cases as [|x rest IH]; cbn [get_case_by_id].
  - split; [done|]. intros (i & Hi & _). by rewrite lookup_nil in Hi.
  - destruct (eq_str (default PNone (x !! "case_id")) case_id) eqn:E.
    + apply eq_str_id in E. split.
      * intros [= <-]. exists 0. split_and!; [done..|]. intros j c Hj. lia.
      * intros ([|i] & Hi & Hc & Hfirst).
        -- by injection Hi as ->.
        -- by destruct (Hfirst 0 x ltac:(lia) eq_refl).
    + apply eq_str_id_false in E. rewrite IH. split.
      * intros (i & Hi & Hc & Hfirst). exists (S i). split_and!; [done..|].
        intros [|j] c Hj Hjc.
        -- by injection Hjc as <-.
        -- apply (Hfirst j c); [lia|done].
      * intros ([|i] & Hi & Hc & Hfirst).
        -- injection Hi as ->. by destruct E.
        -- exists i. split_and!; [done..|].
           intros j c Hj Hjc. apply (Hfirst (S j) c); [lia|done].
Qed.

(** X21: The identifiers [get_case_ids] lists are those of the records, one per
    record and in their order, None for a record without one.  A string is
    listed exactly when [get_case_by_id] finds a case for it, and the case
    found is the first record that carries it; a later record with the same
    identifier is never returned. *)
Theorem listed_case_is_found (cases : list (gmap string pyval)) (case_id : string) :
  length (get_case_ids cases) = length (get_all_cases cases) ∧
  (∀ i case, cases !! i = Some case →
             get_case_ids cases !! i = Some (default PNone (case !! "case_id"))) ∧
  (PStr case_id ∈ get_case_ids cases
   ↔ ∃ case, get_case_by_id cases case_id = Some case) ∧
  (∀ case, get_case_by_id cases case_id = Some case ↔
           ∃ i, cases !! i = Some case ∧ case !! "case_id" = Some (PStr case_id) ∧
                ∀ j c, j < i → cases !! j = Some c →
                       c !! "case_id" ≠ Some (PStr case_id)) ∧
  (∀ case, get_case_by_id cases case_id = Some case → case ≠ ∅).
Proof.
  split_and!.
  - apply length_map.
  - intros i case Hi. unfold get_case_ids.
    change (List.map ?f cases) with (f <$> cases). by rewrite list_lookup_fmap, Hi.
  - split.
    + intros Hin.
      destruct (get_case_by_id cases case_id) as [case|] eqn:E; [by exists case|].
      exfalso. unfold get_case_ids in Hin.
      apply list_elem_of_In, List.in_map_iff in Hin as (c & Hc & Hin).
      apply list_elem_of_In in Hin.
      assert (eq_str (default PNone (c !! "case_id")) case_id = true) as Hid.
      { rewrite Hc. cbn. by rewrite bool_decide_eq_true_2. }
      apply eq_str_id in Hid.
      revert E. clear -Hin Hid. induction cases as [|x rest IH]; [by apply elem_of_nil in Hin|].
      cbn [get_case_by_id].
      destruct (eq_str (default PNone (x !! "case_id")) case_id) eqn:E; [done|].
      apply elem_of_cons in Hin as [->|Hin]; [|by apply IH].
      apply eq_str_id in Hid. congruence.
    + intros [case Hcase]. apply get_case_by_id_found in Hcase as [Hin Hid].
      unfold get_case_ids. apply list_elem_of_In, List.in_map_iff.
      exists case. split; [by rewrite Hid | by apply list_elem_of_In].
  - intros case. apply get_case_by_id_first.
  - intros case Hcase ->. apply get_case_by_id_found in Hcase as [_ Hid].
    by rewrite lookup_empty in Hid.
Qed.

Section Summary.
Context `{Builtins}.
Variable format_float_comma : float → string.

(** X22: The summary of a case: the fixed text for an identifier that is not
    listed; for a found case with a name and a whole amount, the
    identifier, the name and the amount with thousands separators; a found
    case without a name or an amount makes the call raise KeyError, and one
    whose amount is a string ValueError. *)
Theorem summary_of_a_case (cases : list (gmap string pyval)) (case_id : string) :
  (absent case_id cases →
   get_case_summary format_float_comma cases case_id = Ok "Case not found") ∧
  (∀ case, get_case_by_id cases case_id = Some case →
     (∀ name z, case !! "customer_name" = Some (PStr name) →
                case !! "amount" = Some (PInt z) →
                get_case_summary format_float_comma cases case_id
                = Ok (case_id +:+ " - " +:+ name +:+ " (₹"
                      +:+ signed_grouped (z <? 0)%Z (Z.abs z) +:+ ")")) ∧
     (case !! "customer_name" = None ∨
      (is_Some (case !! "customer_name") ∧ case !! "amount" = None) →
      ∃ e, get_case_summary format_float_comma cases case_id = Raise e ∧
           exn_cls e = KeyError) ∧
     (∀ s, is_Some (case !! "customer_name") → case !! "amount" = Some (PStr s) →
           ∃ e, get_case_summary format_float_comma cases case_id = Raise e ∧
                exn_cls e = ValueError)).
Proof.
  split.
  - intros Ha. unfold get_case_summary. by rewrite (get_case_by_id_absent _ _ Ha).
  - intros case Hcase. unfold get_case_summary. rewrite Hcase.
    destruct (get_case_by_id_found _ _ _ Hcase) as [_ Hid].
    rewrite bool_decide_eq_false_2.
    2: { intros Hz. apply map_size_empty_iff in Hz. subst.
         by rewrite lookup_empty in Hid. }
    cbn [getitem]. rewrite Hid. cbn [bind]. split_and!.
    + intros name z -> ->. reflexivity.
    + intros [->|[[n ->] ->]]; by eexists.
    + intros s [n ->] ->. by eexists.
Qed.

End Summary.

(** A database with two records under one identifier. *)
Definition renamed_case : gmap string pyval :=
  <[ "customer_name" := PStr "ABC Holdings" ]> Samples.scenario_case.

Lemma listed_case_is_found_witness :
  get_case_ids [Samples.scenario_case; renamed_case] = [PStr "CASE003"; PStr "CASE003"] ∧
  get_case_by_id [Samples.scenario_case; renamed_case] "CASE003"
  = Some Samples.scenario_case.
Proof.
  split; [vm_compute; reflexivity|].
  apply (listed_case_is_found [Samples.scenario_case; renamed_case] "CASE003").
  exists 0. split_and!; [reflexivity | reflexivity |]. intros j c Hj. lia.
Defined.

Lemma summary_of_a_case_witness :
  get_case_summary (H := Samples.sample_builtins) (fun _ => "")
    [Samples.scenario_case] "CASE003"
  = Ok "CASE003 - ABC Enterprises (₹600,000)".
Proof.
  refine (proj1 (proj2 (summary_of_a_case (H := Samples.sample_builtins) (fun _ => "")
                          [Samples.scenario_case] "CASE003")
                   Samples.scenario_case eq_refl)
            "ABC Enterprises" 600000%Z eq_refl eq_refl).
Defined.

End FetcherFacts.

(* ===================================================================== *)
(** * The outcomes of the pipeline *)
(* ===================================================================== *)

Module PipelineOutcomes.
Import StrFacts RiskClassificationPipeline GeminiFacts PipelineFacts StorageFacts.

(** The three places of [process_case] that can raise besides the
    preprocessor: the console line of step 1, the console lines of step 3
    and the call of step 4. *)
Definition announced (case : gmap string pyval) : result unit :=
  let* name := getitem (PDict case) "customer_name" in
  let* amount := getitem (PDict case) "amount" in
  format_comma_check amount.

Definition reported (classification : pyval) : result pyval :=
  let* level := getitem classification "risk_level" in
  get classification "confidence" (PStr "N/A").

Definition stored (self : t) (now case_id : string) (case : gmap string pyval)
    (classification : pyval) : result (gmap string pyval * ResultStorage.ledger) :=
  let* name := getitem (PDict case) "customer_name" in
  ResultStorage.store_decision now (storage self) case_id name (PDict case) classification.


Definition failed_early (case_id : string) (case : gmap string pyval) (e : exn) : outcome :=
  {| success := false; case_id := case_id; case_data := Some case;
     processed_context := None; classification := None; decision_record := None;
     error := Some (exn_msg e) |}.

Definition failed_late (case_id : string) (case : gmap string pyval) (context : string)
    (cls : pyval) (e : exn) : outcome :=
  {| success := false; case_id := case_id; case_data := Some case;
     processed_context := Some context; classification := Some cls;
     decision_record := None; error := Some (exn_msg e) |}.

Definition completed (case_id : string) (case : gmap string pyval) (context : string)
    (cls : pyval) (record : option (gmap string pyval)) : outcome :=
  {| success := true; case_id := case_id; case_data := Some case;
     processed_context := Some context; classification := Some cls;
     decision_record := record; error := None |}.

Section Outcomes.
Context `{Builtins}.

(** [process_case] on a case that was found, leave by leave. *)
Lemma process_case_found self now case_id save_result case :
  CaseFetcher.get_case_by_id (fetcher self) case_id = Some case →
  process_case self now case_id save_result =
    match announced case with
    | Raise e => (failed_early case_id case e, storage self)
    | Ok _ =>
    match RuleBasedFacts.rendered case with
    | Raise e => (failed_early case_id case e, storage self)
    | Ok context =>
    let cls := classify (classifier_of self) context in
    match reported cls with
    | Raise e => (failed_late case_id case context cls e, storage self)
    | Ok _ =>
        if save_result then
          match stored self now case_id case cls with
          | Raise e => (failed_late case_id case context cls e, storage self)
          | Ok (record, results) => (completed case_id case context cls (Some record), results)
          end
        else (completed case_id case context cls None, storage self)
    end end end.
Proof.
  intros Hcase. unfold process_case. rewrite Hcase.
  destruct (get_case_by_id_found _ _ _ Hcase) as [_ Hid].
  rewrite bool_decide_eq_false_2.
  2: { intros Hz. apply map_size_empty_iff in Hz. subst. by rewrite lookup_empty in Hid. }
  unfold run_steps. cbn [RiskClassificationPipeline.case_id]. fold (announced case).
  destruct (announced case) as [u|e]; [|done].
  change (let* processed := CasePreprocessor.preprocess (Some case) in
          CasePreprocessor.generate_prompt_context processed)
    with (RuleBasedFacts.rendered case).
  destruct (RuleBasedFacts.rendered case) as [context|e]; [|done].
  cbv zeta. fold (reported (classify (classifier_of self) context)).
  destruct (reported (classify (classifier_of self) context)) as [v|e]; [|done].
  destruct save_result; [|done].
  fold (stored self now case_id case (classify (classifier_of self) context)).
  by destruct (stored self now case_id case (classify (classifier_of self) context))
    as [[record results]|e].
Qed.






(** X25: A case that was found but cannot be announced on the console stops the
    pipeline before the preprocessor: without a customer name or an amount
    the error is the missing key between quotes, with a text as amount it is
    the message of the thousands format.  The outcome carries the case and
    nothing after it, and the ledger stays. *)
Theorem incomplete_case_fails_early
    (self : t) (now case_id : string) (save_result : bool) (case : gmap string pyval) :
  CaseFetcher.get_case_by_id (fetcher self) case_id = Some case →
  (case !! "customer_name" = None →
   process_case self now case_id save_result
   = (failed_early case_id case (mk_exn KeyError "'customer_name'"), storage self)) ∧
  (is_Some (case !! "customer_name") → case !! "amount" = None →
   process_case self now case_id save_result
   = (failed_early case_id case (mk_exn KeyError "'amount'"), storage self)) ∧
  (∀ s, is_Some (case !! "customer_name") → case !! "amount" = Some (PStr s) →
   process_case self now case_id save_result
   = (failed_early case_id case (mk_exn ValueError "Cannot specify ',' with 's'."),
      storage self)) ∧
  (∀ e, error (failed_early case_id case e) = Some (exn_msg e) ∧
        success (failed_early case_id case e) = false ∧
        case_data (failed_early case_id case e) = Some case ∧
        processed_context (failed_early case_id case e) = None ∧
        classification (failed_early case_id case e) = None ∧
        decision_record (failed_early case_id case e) = None).
Proof.
  intros Hcase. rewrite (process_case_found _ _ _ _ _ Hcase).
  unfold announced. cbn [getitem]. split_and!.
  - by intros ->.
  - by intros [name ->] ->.
  - by intros s [name ->] ->.
  - done.
Qed.





End Outcomes.




(** A case record without a customer name. *)
Definition nameless_case : gmap string pyval :=
  {[ "case_id" := PStr "CASE010"; "amount" := PInt 10 ]}.

Definition nameless_pipeline : t :=
  {| fetcher := [nameless_case]; classifier_of := Demo; storage := [] |}.

Lemma incomplete_case_fails_early_witness :
  process_case (H := Samples.sample_builtins) nameless_pipeline
    "2025-01-01T10:00:00" "CASE010" true
  = (failed_early "CASE010" nameless_case (mk_exn KeyError "'customer_name'"), []).
Proof.
  refine (proj1 (incomplete_case_fails_early (H := Samples.sample_builtins)
                   nameless_pipeline "2025-01-01T10:00:00" "CASE010" true
                   nameless_case _) _); reflexivity.
Defined.



End PipelineOutcomes.

(* ===================================================================== *)
(** * The errors of the preprocessor *)
(* ===================================================================== *)

Module PreprocessorErrors.
Import StrFacts CasePreprocessor PreprocessorFacts.

(** The conditions under which the categories before a field are computed. *)
Definition amount_ok (case : gmap string pyval) : Prop :=
  ∀ v, case !! "amount" = Some v → numeric v ∧ ∀ z, v = PInt z → (z < 2 ^ 53)%Z.

Definition numeric_field (k : string) (case : gmap string pyval) : Prop :=
  ∀ v, case !! k = Some v → numeric v.

Definition text_field (k : string) (case : gmap string pyval) : Prop :=
  ∀ v, case !! k = Some v → ∃ s, v = PStr s.

Definition container (v : pyval) : Prop :=
  match v with PList _ | PDict _ => True | _ => False end.

Section Errors.
Context `{Builtins}.

(** The rendering of a case that is not empty, step by step. *)
Lemma rendered_steps (case : gmap string pyval) :
  case ≠ ∅ →
  RuleBasedFacts.rendered case =
    (let* a := _categorize_amount (default (PInt 0) (case !! "amount")) in
     let* o := _categorize_overdue (default (PInt 0) (case !! "days_overdue")) in
     let* t := _categorize_attempts (default (PInt 0) (case !! "past_attempts")) in
     let* c := _categorize_customer_type
                 (default (PStr "Individual") (case !! "customer_type")) in
     let* l := _categorize_loan_type (default (PStr "Unknown") (case !! "loan_type")) in
     Ok (template (str (default PNone (case !! "case_id")))
                  (str (default PNone (case !! "customer_name"))) a l o t c)).
Proof.
  intros Hne.
  destruct (_categorize_amount (default (PInt 0) (case !! "amount"))) as [a|] eqn:Ha;
  [destruct (_categorize_overdue (default (PInt 0) (case !! "days_overdue")))
     as [o|] eqn:Ho;
   [destruct (_categorize_attempts (default (PInt 0) (case !! "past_attempts")))
      as [t|] eqn:Ht;
    [destruct (_categorize_customer_type
                 (default (PStr "Individual") (case !! "customer_type")))
       as [c|] eqn:Hc;
     [destruct (_categorize_loan_type (default (PStr "Unknown") (case !! "loan_type")))
        as [l|] eqn:Hl|]|]|]|];
    cbn [bind]; try (by apply rendered_template);
    unfold RuleBasedFacts.rendered, preprocess;
    rewrite bool_decide_eq_false_2 by (intros Hs; by apply map_size_empty_iff in Hs);
    by rewrite ?Ha, ?Ho, ?Ht, ?Hc, ?Hl.
Qed.

Lemma amount_ok_categorized case :
  amount_ok case → ∃ a, _categorize_amount (default (PInt 0) (case !! "amount")) = Ok a.
Proof.
  intros Wa. destruct (case !! "amount") as [v|] eqn:E; [|by eexists].
  destruct (Wa v E). by apply numeric_amount.
Qed.

Lemma overdue_ok_categorized case :
  numeric_field "days_overdue" case →
  ∃ o, _categorize_overdue (default (PInt 0) (case !! "days_overdue")) = Ok o.
Proof.
  intros Wd. destruct (case !! "days_overdue") as [v|] eqn:E; [|by eexists].
  by apply numeric_overdue, (Wd v).
Qed.

Lemma attempts_ok_categorized case :
  numeric_field "past_attempts" case →
  ∃ t, _categorize_attempts (default (PInt 0) (case !! "past_attempts")) = Ok t.
Proof.
  intros Wp. destruct (case !! "past_attempts") as [v|] eqn:E; [|by eexists].
  by apply numeric_attempts, (Wp v).
Qed.

Lemma customer_ok_categorized case :
  text_field "customer_type" case →
  ∃ c, _categorize_customer_type
         (default (PStr "Individual") (case !! "customer_type")) = Ok c.
Proof.
  intros Wc. destruct (case !! "customer_type") as [v|] eqn:E; [|by eexists].
  destruct (Wc v E) as [s ->]. eexists. apply RuleBasedFacts.customer_type_str.
Qed.

(** X28: A field of the wrong type makes the preprocessor raise, and the first
    such field in the order amount, days overdue, past attempts, customer
    type, loan type decides the error: a comparison with a number that is
    not supported for the first three, a missing [lower] for a customer type
    that is no text, an unhashable key for a loan type that is a list or an
    object.  A loan type that is a number or null is accepted. *)
Theorem ill_typed_field_is_an_error (case : gmap string pyval) (v : pyval) :
  case ≠ ∅ →
  (case !! "amount" = Some v → ¬ numeric v →
   RuleBasedFacts.rendered case = Raise (not_supported "<" v)) ∧
  (amount_ok case →
   case !! "days_overdue" = Some v → ¬ numeric v →
   RuleBasedFacts.rendered case = Raise (not_supported "<=" v)) ∧
  (amount_ok case → numeric_field "days_overdue" case →
   case !! "past_attempts" = Some v → ¬ numeric v →
   RuleBasedFacts.rendered case = Raise (not_supported "<=" v)) ∧
  (amount_ok case → numeric_field "days_overdue" case →
   numeric_field "past_attempts" case →
   case !! "customer_type" = Some v → (∀ s, v ≠ PStr s) →
   RuleBasedFacts.rendered case = Raise (no_attribute v "lower")) ∧
  (amount_ok case → numeric_field "days_overdue" case →
   numeric_field "past_attempts" case → text_field "customer_type" case →
   case !! "loan_type" = Some v →
   (container v → RuleBasedFacts.rendered case = Raise (unhashable v)) ∧
   (¬ container v → ∃ ctx, RuleBasedFacts.rendered case = Ok ctx)).
Proof.
  intros Hne. rewrite (rendered_steps case Hne). split_and!.
  - intros -> Hv. cbn [from_option id]. by destruct v.
  - intros Wa Hd Hv. destruct (amount_ok_categorized case Wa) as [a ->].
    rewrite Hd. cbn [bind from_option id]. by destruct v.
  - intros Wa Wd Hp Hv.
    destruct (amount_ok_categorized case Wa) as [a ->].
    destruct (overdue_ok_categorized case Wd) as [o ->].
    rewrite Hp. cbn [bind from_option id]. by destruct v.
  - intros Wa Wd Wp Hc Hv.
    destruct (amount_ok_categorized case Wa) as [a ->].
    destruct (overdue_ok_categorized case Wd) as [o ->].
    destruct (attempts_ok_categorized case Wp) as [t ->].
    rewrite Hc. cbn [bind from_option id]. destruct v; try done. by destruct (Hv s).
  - intros Wa Wd Wp Wc Hl.
    destruct (amount_ok_categorized case Wa) as [a ->].
    destruct (overdue_ok_categorized case Wd) as [o ->].
    destruct (attempts_ok_categorized case Wp) as [t ->].
    destruct (customer_ok_categorized case Wc) as [c ->].
    rewrite Hl. cbn [bind from_option id]. split.
    + intros Hv. by destruct v.
    + intros Hv. destruct v; try (by destruct Hv); by eexists.
Qed.

End Errors.

(** A case whose days overdue are null. *)
Lemma ill_typed_field_is_an_error_witness :
  RuleBasedFacts.rendered (H := Samples.sample_builtins)
    {[ "amount" := PInt 100; "days_overdue" := PNone ]}
  = Raise (mk_exn TypeError
             "'<=' not supported between instances of 'NoneType' and 'int'").
Proof.
  refine (proj1 (proj2 (ill_typed_field_is_an_error (H := Samples.sample_builtins)
                          {[ "amount" := PInt 100; "days_overdue" := PNone ]} PNone _))
            _ _ _).
  - discriminate.
  - intros v [= <-]. split; [exact I|]. intros z [= <-]. reflexivity.
  - reflexivity.
  - intros Hn. exact Hn.
Defined.

End PreprocessorErrors.
